(** * Header-carried sessions of oscarapi: the middleware, verified

    A shallow embedding of [oscarapi/middleware.py]: the [Session-Id]
    header grammar ([HTTP_SESSION_ID_REGEX], a Python regular expression,
    run by a backtracking matcher with Python's priorities), the parser
    [parse_session_id], the resumer [start_or_resume], the two request
    interceptors and the response writer. *)

From Stdlib Require Import String Ascii List Bool Arith Lia.
Import ListNotations.

Open Scope string_scope.

(** ** Strings *)

Module Str.

Fixpoint all (p : ascii -> bool) (s : string) : bool :=
  match s with
  | EmptyString => true
  | String a s' => p a && all p s'
  end.

Fixpoint take (n : nat) (s : string) : string :=
  match n, s with
  | S n', String a s' => String a (take n' s')
  | _, _ => EmptyString
  end.

(** [str.lower()] as far as ASCII goes: only [A-Z] are changed.  Paths
    with other cased letters are outside this model. *)
Definition lower_char (a : ascii) : ascii :=
  let n := nat_of_ascii a in
  if ((65 <=? n) && (n <=? 90))%nat then ascii_of_nat (n + 32) else a.

Fixpoint lower (s : string) : string :=
  match s with
  | EmptyString => EmptyString
  | String a s' => String (lower_char a) (lower s')
  end.

(** [s.startswith(p)] *)
Fixpoint startswith (s p : string) {struct p} : bool :=
  match p, s with
  | EmptyString, _ => true
  | String a p', String b s' => Ascii.eqb a b && startswith s' p'
  | String _ _, EmptyString => false
  end.

Fixpoint count (p : ascii -> bool) (s : string) : nat :=
  match s with
  | EmptyString => 0
  | String a s' => (if p a then 1 else 0) + count p s'
  end.

(** [''.join(l)] *)
Fixpoint cat (l : list string) : string :=
  match l with
  | [] => EmptyString
  | x :: l' => x ++ cat l'
  end.

End Str.

(** ** Python regular expressions, as far as the pattern uses them *)

Module Re.

(** The constructs of [re] that occur in the pattern.  [Chr p] is one
    character of a class ([.], [[-:]], [[0-9a-fA-F]], a literal);
    [Rep r lo hi greedy] is [r{lo,hi}], [hi = None] for no upper bound,
    lazy ([?]-suffixed) when [greedy] is [false]. *)
Inductive re : Type :=
| Eps
| Chr (p : ascii -> bool)
| Bol
| Eol
| Seq (r1 r2 : re)
| Alt (r1 r2 : re)
| Group (name : string) (r : re)
| Rep (r : re) (lo : nat) (hi : option nat) (greedy : bool).

(** Where the matcher stands: the offset in the subject and what is
    left of it. *)
Record cursor : Type := Cursor { pos : nat; rest : string }.

(** Named groups captured so far, latest first. *)
Definition env : Type := list (string * string).

(** What remains to be matched after a sub-pattern. *)
Definition kont : Type := cursor -> env -> option env.

Definition orelse (a b : option env) : option env :=
  match a with
  | Some x => Some x
  | None => b
  end.

(** [$] without [re.MULTILINE]: the end of the subject, or just before
    a line feed that ends it. *)
Definition at_end (s : string) : bool :=
  match s with
  | EmptyString => true
  | String a EmptyString => Ascii.eqb a "010"%char
  | _ => false
  end.

(** The text between two cursors of one subject. *)
Definition between (c c' : cursor) : string :=
  Str.take (pos c' - pos c) (rest c).

(** The [extra] optional rounds of a repetition, after the mandatory
    ones: a greedy one tries another round first, a lazy one tries the
    continuation first. *)
Fixpoint optional (step : kont -> kont) (extra : nat) (greedy : bool)
         (k : kont) : kont :=
  match extra with
  | O => k
  | S extra' =>
      fun c e =>
        if greedy
        then orelse (step (optional step extra' greedy k) c e) (k c e)
        else orelse (k c e) (step (optional step extra' greedy k) c e)
  end.

Fixpoint mandatory (step : kont -> kont) (lo : nat) (k : kont) : kont :=
  match lo with
  | O => k
  | S lo' => step (mandatory step lo' k)
  end.

(** How many optional rounds [r{lo,hi}] may take.  Without an upper
    bound, a body that consumes a character at each round cannot be
    repeated more often than there are characters left. *)
Definition rounds (lo : nat) (hi : option nat) (c : cursor) : nat :=
  match hi with
  | Some h => h - lo
  | None => String.length (rest c)
  end.

(** The backtracking matcher, in continuation-passing style: the first
    alternative that lets the whole pattern match wins. *)
Fixpoint run (r : re) (k : kont) (c : cursor) (e : env) {struct r}
  : option env :=
  match r with
  | Eps => k c e
  | Chr p =>
      match rest c with
      | String a s' => if p a then k (Cursor (S (pos c)) s') e else None
      | EmptyString => None
      end
  | Bol => if (pos c =? 0)%nat then k c e else None
  | Eol => if at_end (rest c) then k c e else None
  | Seq r1 r2 => run r1 (run r2 k) c e
  | Alt r1 r2 => orelse (run r1 k c e) (run r2 k c e)
  | Group name r1 =>
      run r1 (fun c' e' => k c' ((name, between c c') :: e')) c e
  | Rep r1 lo hi greedy =>
      mandatory (run r1) lo (optional (run r1) (rounds lo hi c) greedy k) c e
  end.

(** A literal run of characters. *)
Fixpoint lit (l : string) : re :=
  match l with
  | EmptyString => Eps
  | String a l' => Seq (Chr (Ascii.eqb a)) (lit l')
  end.

(** [pattern.match(s)]: anchored at offset 0, any end. *)
Definition match_ (r : re) (s : string) : option env :=
  run r (fun _ e => Some e) (Cursor 0 s) [].

(** The continuation of [match_]: the pattern is through. *)
Definition done : kont := fun _ e => Some e.

(** *** What a pattern can match *)

Definition rel : Type := cursor -> env -> cursor -> env -> Prop.

(** [n] rounds of [R] in a row. *)
Fixpoint power (R : rel) (n : nat) : rel :=
  match n with
  | O => fun c e c' e' => c' = c /\ e' = e
  | S n' => fun c e c' e' =>
      exists c1 e1, R c e c1 e1 /\ power R n' c1 e1 c' e'
  end.

(** [den r c e c' e']: from cursor [c] with groups [e], the pattern [r]
    can match up to cursor [c'] and leave the groups [e']. *)
Fixpoint den (r : re) : rel :=
  match r with
  | Eps => fun c e c' e' => c' = c /\ e' = e
  | Chr p => fun c e c' e' =>
      exists a, rest c = String a (rest c') /\ p a = true
                /\ pos c' = S (pos c) /\ e' = e
  | Bol => fun c e c' e' => pos c = 0 /\ c' = c /\ e' = e
  | Eol => fun c e c' e' => at_end (rest c) = true /\ c' = c /\ e' = e
  | Seq r1 r2 => fun c e c' e' =>
      exists c1 e1, den r1 c e c1 e1 /\ den r2 c1 e1 c' e'
  | Alt r1 r2 => fun c e c' e' => den r1 c e c' e' \/ den r2 c e c' e'
  | Group name r1 => fun c e c' e' =>
      exists e1, den r1 c e c' e1 /\ e' = (name, between c c') :: e1
  | Rep r1 lo hi _ => fun c e c' e' =>
      exists n, lo <= n <= lo + rounds lo hi c /\ power (den r1) n c e c' e'
  end.

Definition sound (step : kont -> kont) (R : rel) : Prop :=
  forall k c e x, step k c e = Some x ->
                  exists c' e', R c e c' e' /\ k c' e' = Some x.

Definition complete (step : kont -> kont) (R : rel) : Prop :=
  forall k c e c' e', R c e c' e' -> k c' e' <> None -> step k c e <> None.

Fixpoint lookup (name : string) (e : env) : option string :=
  match e with
  | [] => None
  | (n, v) :: e' => if String.eqb n name then Some v else lookup name e'
  end.

End Re.

(** ** The session header *)

(** A Python [dict] with string keys and values. *)
Definition dict : Type := list (string * string).

Definition getitem (d : dict) (key : string) : option string :=
  Re.lookup key d.

Section Pattern.

Import Re.
Local Infix ";;" := Seq (at level 61, right associativity).

Definition LF : ascii := "010"%char.

(** [.] without [re.DOTALL]: anything but a line feed. *)
Definition dot (a : ascii) : bool := negb (Ascii.eqb a LF).

(** [[-:]] *)
Definition is_sep (a : ascii) : bool :=
  Ascii.eqb a "-"%char || Ascii.eqb a ":"%char.

(** [[0-9a-fA-F]] *)
Definition is_hex (a : ascii) : bool :=
  let n := nat_of_ascii a in
  (((48 <=? n) && (n <=? 57)) || ((97 <=? n) && (n <=? 102))
   || ((65 <=? n) && (n <=? 70)))%nat.

(** [(?:[-:][0-9a-fA-F]+)] *)
Definition hex_suffix : re := Chr is_sep ;; Rep (Chr is_hex) 1 None true.

(** [(?:[-:][0-9a-fA-F]+){0,2}$] *)
Definition suffixes : re := Rep hex_suffix 0 (Some 2) true ;; Eol.

(** [(?P<session_id>.+?)(?:[-:][0-9a-fA-F]+){0,2}$] *)
Definition id_part : re :=
  Group "session_id" (Rep (Chr dot) 1 None false) ;; suffixes.

(** [(?P<realm>.*?):(?P<session_id>.+?)(?:[-:][0-9a-fA-F]+){0,2}$] *)
Definition realm_part : re :=
  Group "realm" (Rep (Chr dot) 0 None false) ;; lit ":" ;; id_part.

(** [r'^SID:(?P<type>(?:ANON|AUTH)):(?P<realm>.*?):(?P<session_id>.+?)(?:[-:][0-9a-fA-F]+){0,2}$'] *)
Definition HTTP_SESSION_ID_REGEX : re :=
  Bol ;; lit "SID:" ;; Group "type" (Alt (lit "ANON") (lit "AUTH")) ;;
  lit ":" ;; realm_part.

End Pattern.

(** [m.groupdict()] of a match of the pattern: its three named groups.
    Each of them lies on every path through the pattern, so none is ever
    unset. *)
Definition groupdict (e : Re.env) : dict :=
  map (fun name =>
         (name, match Re.lookup name e with Some v => v | None => "" end))
      ["type"; "realm"; "session_id"].

(** ** Requests, sessions, responses *)

Record Session : Type := MkSession { session_key : string; is_new : bool }.

(** The attributes of a request that the middleware reads or sets.
    [session] and [parsed_session_uri] are [None] while the attribute is
    not set. *)
Record request : Type := Request {
  path : string;
  META : dict;
  session : option Session;
  parsed_session_uri : option dict;
  csrf_processing_done : bool
}.

Definition parse_header (unparsed_session_id : string) : option dict :=
  match Re.match_ HTTP_SESSION_ID_REGEX unparsed_session_id with
  | Some e => Some (groupdict e)
  | None => None
  end.

Definition parse_session_id (req : request) : option dict :=
  match getitem (META req) "HTTP_SESSION_ID" with
  | Some unparsed_session_id => parse_header unparsed_session_id
  | None => None
  end.

(** The items of a reference, as [groupdict] lays them out. *)
Definition reference (type realm session_id : string) : dict :=
  [("type", type); ("realm", realm); ("session_id", session_id)].

(** One stripped suffix: a separator and one or more hexadecimal digits. *)
Definition is_segment (g : string) : bool :=
  match g with
  | String a h => is_sep a && negb (String.eqb h "") && Str.all is_hex h
  | EmptyString => false
  end.

(** [s] ends in such a suffix. *)
Fixpoint ends_with_segment (s : string) : bool :=
  match s with
  | EmptyString => false
  | String _ s' => is_segment s || ends_with_segment s'
  end.

(** [sfx] is made of at most [n] suffixes. *)
Definition stripped (n : nat) (sfx : string) : Prop :=
  exists l : list string,
    length l <= n /\ forallb is_segment l = true /\ sfx = Str.cat l.

(** The wire form of a reference. *)
Definition wire (type realm session_id : string) : string :=
  "SID:" ++ type ++ ":" ++ realm ++ ":" ++ session_id.

(** ** The grammar, declaratively *)

Section GrammarDefs.

Import Re.

Definition is_colon (a : ascii) : bool := Ascii.eqb a ":"%char.

Definition not_colon (a : ascii) : bool := negb (Ascii.eqb a ":"%char).

(** No way of taking at most two suffixes off [i ++ sfx] leaves a
    shorter, non-empty identifier than [i]. *)
Definition minimal (i sfx : string) : Prop :=
  forall i1 sfx1, i1 <> "" -> stripped 2 sfx1 -> i ++ sfx = i1 ++ sfx1 ->
                  String.length i <= String.length i1.

(** The grammar, with the matcher's choices: [s] is a type, a realm up
    to the first colon after it, the shortest identifier that leaves at
    most two suffixes, these suffixes, and the line feed that [$] lets
    through. *)
Record parses (s t r i sfx nl : string) : Prop := {
  p_wire : s = wire t r i ++ sfx ++ nl;
  p_type : t = "ANON" \/ t = "AUTH";
  p_realm_dot : Str.all dot r = true;
  p_realm_colon : Str.all not_colon r = true;
  p_id : i <> "";
  p_id_dot : Str.all dot i = true;
  p_sfx : stripped 2 sfx;
  p_nl : at_end nl = true;
  p_min : minimal i sfx
}.

End GrammarDefs.

(** ** Exceptions *)

(** The exceptions that occur.  [NotAcceptable] and [SessionNotFound] are
    [rest_framework.exceptions.APIException]s, the others are not;
    [BadHeaderError] is Django's refusal of a header value. *)
Inductive exn : Type :=
| NotAcceptable (detail : string)
| SessionNotFound
| PermissionDenied
| AssertionError (msg : string)
| KeyError (key : string)
| TypeError
| BadHeaderError.

Inductive result (A : Type) : Type :=
| Ok (a : A)
| Raised (e : exn).
Arguments Ok {A} a.
Arguments Raised {A} e.

Definition result_map {A B : Type} (f : A -> B) (r : result A) : result B :=
  match r with
  | Ok a => Ok (f a)
  | Raised e => Raised e
  end.

(** ** String formatting *)

Module Fmt.

(** The right operand of [%]: a tuple of strings (a single string
    counts as a tuple of one) or a mapping. *)
Inductive args : Type :=
| Tuple (l : list string)
| Mapping (d : dict).

Inductive mode : Type :=
| Text
| Percent
| Name (acc : string)
| Named (key : string).

(** [template % a] for the directives the middleware uses: [%s],
    [%(key)s] and [%%].  Python raises [KeyError] for a key the mapping
    lacks and [TypeError] for too few or too many arguments or for a
    mapping where a tuple is needed; a truncated or any other directive
    is reported as [TypeError] too. *)
Fixpoint format (template : string) (m : mode) (a : args) : result string :=
  match template with
  | EmptyString =>
      match m, a with
      | Text, Tuple (_ :: _) => Raised TypeError
      | Text, _ => Ok EmptyString
      | _, _ => Raised TypeError
      end
  | String ch t =>
      match m with
      | Text =>
          if Ascii.eqb ch "%"%char then format t Percent a
          else result_map (String ch) (format t Text a)
      | Percent =>
          if Ascii.eqb ch "s"%char then
            match a with
            | Tuple (x :: l) => result_map (append x) (format t Text (Tuple l))
            | _ => Raised TypeError
            end
          else if Ascii.eqb ch "%"%char then
            result_map (String ch) (format t Text a)
          else if Ascii.eqb ch "("%char then
            match a with
            | Mapping _ => format t (Name EmptyString) a
            | Tuple _ => Raised TypeError
            end
          else Raised TypeError
      | Name acc =>
          if Ascii.eqb ch ")"%char then format t (Named acc) a
          else format t (Name (acc ++ String ch EmptyString)) a
      | Named key =>
          if Ascii.eqb ch "s"%char then
            match a with
            | Mapping d =>
                match getitem d key with
                | Some v => result_map (append v) (format t Text a)
                | None => Raised (KeyError key)
                end
            | Tuple _ => Raised TypeError
            end
          else Raised TypeError
      end
  end.

Definition percent (template : string) (a : args) : result string :=
  format template Text a.

End Fmt.

(** ** The world around the middleware *)

(** A [django.http.HttpResponse].  [headers] are its headers besides the
    content type, kept as Django keeps them: under the lower-cased name,
    with the name as it was given and the value. *)
Record response : Type := Response {
  status_code : nat;
  content : string;
  content_type : string;
  headers : list (string * (string * string))
}.

Definition CR : ascii := "013"%char.

(** What [HttpResponse.__setitem__] lets into a header value: anything
    but a carriage return and a line feed. *)
Definition header_char (a : ascii) : bool :=
  negb (Ascii.eqb a CR) && negb (Ascii.eqb a LF).

(** [response[name]], [None] for the [KeyError] of a header that is not
    set.  Header names are ASCII, so [Str.lower] is their [lower()]. *)
Definition get_header (resp : response) (name : string) : option string :=
  match
    find (fun kv => String.eqb (fst kv) (Str.lower name)) (headers resp)
  with
  | Some (_, (_, v)) => Some v
  | None => None
  end.

(** The store of [response[name] = v], once the value is let in: the
    entry of that name, letter case aside, is replaced. *)
Definition set_header (resp : response) (name v : string) : response :=
  Response (status_code resp) (content resp) (content_type resp)
           ((Str.lower name, (name, v))
              :: filter (fun kv => negb (String.eqb (fst kv) (Str.lower name)))
                        (headers resp)).

(** What lives outside the request: the session store (the keys of the
    sessions it holds), the [ApiKey] table, the log, and every call of
    [get_session] made so far with its arguments, latest first. *)
Record world : Type := World {
  sessions : list string;
  api_keys : list string;
  log : list string;
  resumptions : list (string * bool)
}.

(** What the host supplies: the request's domain ([oscarapi.utils.get_domain]),
    the URL of the API root ([reverse('api-root')]), the cookie session
    middleware that [HeaderSessionMiddleware] extends, and the status and
    detail that the failure of an authenticated resume carries. *)
Class Host : Type := {
  get_domain : request -> string;
  api_root : string;
  cookie_process_request : request -> request;
  cookie_process_response : request -> response -> response;
  not_found_status : nat;
  not_found_detail : string
}.

(** [ugettext] with no translation activated returns the message. *)
Definition ugettext (msgid : string) : string := msgid.

(** [e.status_code] and [e.detail] of an [APIException]; [None] for the
    exceptions that [except exceptions.APIException] lets through. *)
Definition api_exception `{Host} (e : exn) : option (nat * string) :=
  match e with
  | NotAcceptable detail => Some (406, detail)
  | SessionNotFound => Some (not_found_status, not_found_detail)
  | _ => None
  end.

(** Modelled from the spec: [session_id_from_parsed_session_uri] of
    [oscarapi.utils], which is not among the sources; section 4.4 takes the
    identifier of the session to be the [sessionId] of the reference. *)
Definition session_id_from_parsed_session_uri (parsed : dict) : result string :=
  match getitem parsed "session_id" with
  | Some v => Ok v
  | None => Raised (KeyError "session_id")
  end.

(** Modelled from the spec: [get_session] of [oscarapi.utils], which is
    not among the sources, after [session-store.get(id, createIfAbsent)] of
    sections 4.3 and 6: a stored session is handed out; an absent one is
    created under the given id unless [raise_on_create], which makes the
    absence a [SessionNotFound]. *)
Definition get_session (session_id : string) (raise_on_create : bool)
           (w : world) : result Session * world :=
  let calls := (session_id, raise_on_create) :: resumptions w in
  if existsb (String.eqb session_id) (sessions w) then
    (Ok (MkSession session_id false),
     World (sessions w) (api_keys w) (log w) calls)
  else if raise_on_create then
    (Raised SessionNotFound, World (sessions w) (api_keys w) (log w) calls)
  else
    (Ok (MkSession session_id true),
     World (session_id :: sessions w) (api_keys w) (log w) calls).

Definition start_or_resume (session_id session_type : string) (w : world)
  : result Session * world :=
  if String.eqb session_type "ANON" then get_session session_id false w
  else get_session session_id true w.

Definition is_api_request `{Host} (req : request) : bool :=
  Str.startswith (Str.lower (path req)) (Str.lower api_root).

(** [rest_framework.authentication.get_authorization_header]:
    [request.META.get('HTTP_AUTHORIZATION', b'')]. *)
Definition get_authorization_header (req : request) : string :=
  match getitem (META req) "HTTP_AUTHORIZATION" with
  | Some v => v
  | None => EmptyString
  end.

(** [logger.error(msg)] *)
Definition logger_error (msg : string) (w : world) : world :=
  World (sessions w) (api_keys w) (msg :: log w) (resumptions w).

(** The value of the [Session-Id] response header for a reference. *)
Definition render (parsed : dict) : result string :=
  Fmt.percent "SID:%(type)s:%(realm)s:%(session_id)s" (Fmt.Mapping parsed).

(** A double quote. *)
Definition dq : string := String "034"%char EmptyString.

(** ['{"reason": "%s"}'] *)
Definition reason_template : string :=
  "{" ++ dq ++ "reason" ++ dq ++ ": " ++ dq ++ "%s" ++ dq ++ "}".

(** What the two templates of the middleware come to. *)
Definition mismatch_detail (realm domain : string) : string :=
  "Can not accept cookie with realm " ++ realm ++ " on realm " ++ domain.

Definition reason_body (detail : string) : string :=
  "{" ++ dq ++ "reason" ++ dq ++ ": " ++ dq ++ detail ++ dq ++ "}".

(** [response['Session-Id'] = v]: Django raises [BadHeaderError] for a
    value with a carriage return or a line feed. *)
Definition with_session_id (resp : response) (v : string) : result response :=
  if Str.all header_char v then Ok (set_header resp "Session-Id" v)
  else Raised BadHeaderError.

Module HeaderSessionMiddleware.

(** The [except exceptions.APIException] clause: an API exception
    becomes a response, anything else goes on. *)
Definition handle `{Host} (e : exn) : result (option response) :=
  match api_exception e with
  | Some (status, detail) =>
      match Fmt.percent reason_template (Fmt.Tuple [detail]) with
      | Ok body => Ok (Some (Response status body "application/json" []))
      | Raised e' => Raised e'
      end
  | None => Raised e
  end.

(** The body of the [try] block once a reference was parsed: the value
    returned or the exception raised, with the request and the world as
    they are then. *)
Definition bind_session `{Host} (parsed : dict) (req : request) (w : world)
  : result (option response) * request * world :=
  let domain := get_domain req in
  match getitem parsed "realm" with
  | None => (Raised (KeyError "realm"), req, w)
  | Some realm =>
      if negb (String.eqb realm domain) then
        match
          Fmt.percent
            (ugettext "Can not accept cookie with realm %s on realm %s")
            (Fmt.Tuple [realm; domain])
        with
        | Ok detail => (Raised (NotAcceptable detail), req, w)
        | Raised e => (Raised e, req, w)
        end
      else
        match session_id_from_parsed_session_uri parsed with
        | Raised e => (Raised e, req, w)
        | Ok session_id =>
            match getitem parsed "type" with
            | None => (Raised (KeyError "type"), req, w)
            | Some session_type =>
                match start_or_resume session_id session_type w with
                | (Raised e, w') => (Raised e, req, w')
                | (Ok s, w') =>
                    (Ok None,
                     Request (path req) (META req) (Some s) (Some parsed) true,
                     w')
                end
            end
        end
  end.

Definition process_request `{Host} (req : request) (w : world)
  : result (option response) * request * world :=
  if is_api_request req then
    match parse_session_id req with
    | Some parsed =>
        match bind_session parsed req w with
        | (Raised e, req', w') => (handle e, req', w')
        | done => done
        end
    | None => (Ok None, cookie_process_request req, w)
    end
  else (Ok None, cookie_process_request req, w).

Definition process_response `{Host} (req : request) (resp : response)
  : result response :=
  match is_api_request req, session req, parsed_session_uri req with
  | true, Some s, Some parsed =>
      let session_key := session_key s in
      match session_id_from_parsed_session_uri parsed with
      | Raised e => Raised e
      | Ok parsed_session_key =>
          if String.eqb session_key parsed_session_key then
            match render parsed with
            | Ok v =>
                match with_session_id resp v with
                | Ok resp' => Ok (cookie_process_response req resp')
                | Raised e => Raised e
                end
            | Raised e => Raised e
            end
          else
            Raised (AssertionError
                      (session_key ++ " is not equal to "
                       ++ parsed_session_key))
      end
  | _, _, _ => Ok (cookie_process_response req resp)
  end.

End HeaderSessionMiddleware.

Module ApiGatewayMiddleWare.

Definition process_request `{Host} (req : request) (w : world)
  : result (option response) * request * world :=
  if is_api_request req then
    let key := get_authorization_header req in
    if existsb (String.eqb key) (api_keys w) then (Ok None, req, w)
    else (Raised PermissionDenied, req,
          logger_error "No credentials provided" w)
  else (Ok None, req, w).

End ApiGatewayMiddleWare.

(** ** JSON bodies *)

Module Json.

(** The characters that may follow a backslash in a JSON string. *)
Definition escape (a : ascii) : bool :=
  existsb (Ascii.eqb a)
          ["034"%char; "\"%char; "/"%char; "b"%char; "f"%char; "n"%char;
           "r"%char; "t"%char; "u"%char].

(** Reads the inside of a JSON string up to the quote that closes it
    and returns what follows that quote; [None] when the text holds a
    raw control character or a bad escape before any closing quote. *)
Fixpoint string_tail (s : string) : option string :=
  match s with
  | EmptyString => None
  | String a s' =>
      if Ascii.eqb a "034"%char then Some s'
      else if Ascii.eqb a "\"%char then
        match s' with
        | String b s'' => if escape b then string_tail s'' else None
        | EmptyString => None
        end
      else if (nat_of_ascii a <? 32)%nat then None
      else string_tail s'
  end.

Fixpoint strip_prefix (p s : string) : option string :=
  match p, s with
  | EmptyString, _ => Some s
  | String a p', String b s' =>
      if Ascii.eqb a b then strip_prefix p' s' else None
  | _, _ => None
  end.

(** [body] is the JSON object [{"reason": "..."}] with the one string
    field that the template of the middleware lays out. *)
Definition reason_object (body : string) : bool :=
  match strip_prefix ("{" ++ dq ++ "reason" ++ dq ++ ": " ++ dq) body with
  | Some value =>
      match string_tail value with
      | Some after => String.eqb after "}"
      | None => false
      end
  | None => false
  end.

End Json.

(** ** A host to run the middleware on *)

Module Example.

#[export] Instance host : Host := {
  get_domain := fun _ => "example.com";
  api_root := "/api/";
  cookie_process_request := fun req => req;
  cookie_process_response := fun _ resp => resp;
  not_found_status := 401;
  not_found_detail := "Authentication credentials were not provided."
}.

Definition api_request (meta : dict) : request :=
  Request "/api/basket/" meta None None false.

Definition empty_world : world := World [] [] [] [].

Definition ok_response : response := Response 200 "{}" "application/json" [].

Definition with_header (v : string) : request :=
  api_request [("HTTP_SESSION_ID", v)].

Definition bound (key : string) : request :=
  Request "/api/basket/" [] (Some (MkSession key false))
          (Some (reference "ANON" "example.com" "987171879")) true.

Definition keyed_world : world := World [] ["s3cr3t"] [] [].

End Example.

(** ** Further notions *)

(** A text that is empty or starts with a separator, as a run of
    suffixes does. *)
Definition headed (x : string) : Prop :=
  match x with
  | EmptyString => True
  | String a _ => is_sep a = true
  end.

(** A character that a JSON string holds as it is: no double quote, no
    backslash, no control character. *)
Definition json_safe (a : ascii) : bool :=
  negb (Ascii.eqb a "034"%char) && negb (Ascii.eqb a "\"%char)
  && negb (nat_of_ascii a <? 32)%nat.

(** What the parser accepts: a type, a realm and a body without line
    feed, the body not empty, and at most one line feed at the end. *)
Definition well_formed (s : string) : Prop :=
  exists t r body nl,
    s = wire t r body ++ nl
    /\ (t = "ANON" \/ t = "AUTH")
    /\ Str.all dot r = true
    /\ body <> "" /\ Str.all dot body = true
    /\ Re.at_end nl = true.

Module Doctests.

Definition header (v : string) : request :=
  Request "/" [("HTTP_SESSION_ID", v)] None None false.

Example anon :
  parse_session_id (header "SID:ANON:example.com:987171879")
  = Some (reference "ANON" "example.com" "987171879").
Proof. reflexivity. Qed.

Example auth :
  parse_session_id (header "SID:AUTH:example.com:987171879")
  = Some (reference "AUTH" "example.com" "987171879").
Proof. reflexivity. Qed.

Example one_suffix :
  parse_session_id (header "SID:ANON:example.com:987171879-16EF")
  = Some (reference "ANON" "example.com" "987171879").
Proof. reflexivity. Qed.

Example two_suffixes :
  parse_session_id (header "SID:ANON:example.com:98717-16EF:100")
  = Some (reference "ANON" "example.com" "98717").
Proof. reflexivity. Qed.

Example empty_realm :
  parse_session_id (header "SID:ANON::987171879")
  = Some (reference "ANON" "" "987171879").
Proof. reflexivity. Qed.

Example not_hex :
  parse_session_id (header "SID:ANON:example.com:923-thread1")
  = Some (reference "ANON" "example.com" "923-thread1").
Proof. reflexivity. Qed.

Example bad_type :
  parse_session_id (header "SID:BULLSHIT:example.com:987171879") = None.
Proof. reflexivity. Qed.

Example garbage : parse_session_id (header "ENTIREGABRBAGE") = None.
Proof. reflexivity. Qed.

Example too_short : parse_session_id (header "SID:ANON:987171879") = None.
Proof. reflexivity. Qed.

End Doctests.

(** ** Facts about strings *)

Module StrFacts.

Lemma app_nil_r (s : string) : s ++ "" = s.
Proof. induction s as [|a s IH]; simpl; [reflexivity | now rewrite IH]. Qed.

Lemma app_assoc (a b c : string) : (a ++ b) ++ c = a ++ b ++ c.
Proof. induction a as [|x a IH]; simpl; [reflexivity | now rewrite IH]. Qed.

Lemma length_app (a b : string) :
  String.length (a ++ b) = String.length a + String.length b.
Proof. induction a as [|x a IH]; simpl; [reflexivity | now rewrite IH]. Qed.


Lemma length_zero (s : string) : String.length s = 0 -> s = "".
Proof. destruct s; simpl; [reflexivity | discriminate]. Qed.

Lemma all_app (p : ascii -> bool) (a b : string) :
  Str.all p (a ++ b) = Str.all p a && Str.all p b.
Proof.
  induction a as [|x a IH]; simpl; [reflexivity|].
  now rewrite IH, andb_assoc.
Qed.

Lemma take_app (a b : string) : Str.take (String.length a) (a ++ b) = a.
Proof. induction a as [|x a IH]; simpl; [now destruct b | now rewrite IH]. Qed.

(** Two ways of cutting one string: one of the first parts is a prefix
    of the other. *)
Lemma app_eq_app (a b c d : string) :
  a ++ b = c ++ d ->
  exists m, (c = a ++ m /\ b = m ++ d) \/ (a = c ++ m /\ d = m ++ b).
Proof.
  revert c; induction a as [|x a IH]; intros c E; simpl in E.
  - exists c. left. now split.
  - destruct c as [|y c]; simpl in E.
    + exists (String x a). right. now split.
    + injection E as -> E. destruct (IH _ E) as [m [[-> ->]|[-> ->]]];
        exists m; [left | right]; now split.
Qed.

(** Prefixes of equal length of one string are equal. *)
Lemma app_eq_length (a b c d : string) :
  a ++ b = c ++ d -> String.length a = String.length c -> a = c /\ b = d.
Proof.
  revert c; induction a as [|x a IH]; intros [|y c] E L; simpl in *;
    try discriminate; [now split|].
  injection E as -> E. injection L as L.
  destruct (IH _ E L) as [-> ->]. now split.
Qed.

End StrFacts.

(** ** What a pattern matches, and that the matcher finds it *)

Module ReFacts.

Import Re.

Lemma power_add (R : rel) (a b : nat) c e c1 e1 c' e' :
  power R a c e c1 e1 -> power R b c1 e1 c' e' -> power R (a + b) c e c' e'.
Proof.
  revert c e; induction a as [|a IH]; simpl; intros c e.
  - now intros [-> ->].
  - intros (c2 & e2 & H1 & H2) H3. exists c2, e2. split; [exact H1|].
    now apply IH.
Qed.

Lemma power_split (R : rel) (a b : nat) c e c' e' :
  power R (a + b) c e c' e' ->
  exists c1 e1, power R a c e c1 e1 /\ power R b c1 e1 c' e'.
Proof.
  revert c e; induction a as [|a IH]; simpl; intros c e.
  - intros H. exists c, e. now split.
  - intros (c2 & e2 & H1 & H2). destruct (IH _ _ H2) as (c1 & e1 & H3 & H4).
    exists c1, e1. split; [|exact H4]. now exists c2, e2.
Qed.

Lemma orelse_some (a b : option env) x :
  orelse a b = Some x -> a = Some x \/ (a = None /\ b = Some x).
Proof. destruct a; simpl; intros E; [left | right]; auto. Qed.

Lemma orelse_not_none (a b : option env) :
  a <> None \/ b <> None -> orelse a b <> None.
Proof. destruct a; simpl; intros [H|H]; congruence. Qed.

Section Repetition.

Variables (step : kont -> kont) (R : rel).

Lemma optional_sound (n : nat) (greedy : bool) :
  sound step R ->
  forall k c e x, optional step n greedy k c e = Some x ->
    exists m c' e', m <= n /\ power R m c e c' e' /\ k c' e' = Some x.
Proof.
  intros HS; induction n as [|n IH]; intros k c e x H; simpl in H.
  - exists 0, c, e. repeat split; auto.
  - assert (k c e = Some x
            \/ step (optional step n greedy k) c e = Some x) as [H'|H'].
    { destruct greedy; apply orelse_some in H; tauto. }
    + exists 0, c, e. repeat split; auto. lia.
    + apply HS in H'. destruct H' as (c1 & e1 & H1 & H2).
      apply IH in H2. destruct H2 as (m & c' & e' & Hm & H2 & H3).
      exists (S m), c', e'. split; [lia|]. split; [|exact H3].
      now exists c1, e1.
Qed.

Lemma mandatory_sound (n : nat) :
  sound step R ->
  forall k c e x, mandatory step n k c e = Some x ->
    exists c' e', power R n c e c' e' /\ k c' e' = Some x.
Proof.
  intros HS; induction n as [|n IH]; intros k c e x H; simpl in H.
  - exists c, e. repeat split; auto.
  - apply HS in H. destruct H as (c1 & e1 & H1 & H2).
    apply IH in H2. destruct H2 as (c' & e' & H2 & H3).
    exists c', e'. split; [|exact H3]. now exists c1, e1.
Qed.

Lemma optional_complete (n : nat) (greedy : bool) :
  complete step R ->
  forall m k c e c' e', m <= n -> power R m c e c' e' ->
    k c' e' <> None -> optional step n greedy k c e <> None.
Proof.
  intros HC; induction n as [|n IH]; intros m k c e c' e' Hm HP Hk.
  - assert (m = 0) as -> by lia. destruct HP as [-> ->]. exact Hk.
  - simpl. destruct m as [|m].
    + destruct HP as [-> ->].
      destruct greedy; apply orelse_not_none; auto.
    + destruct HP as (c1 & e1 & H1 & H2).
      assert (step (optional step n greedy k) c e <> None) as H3.
      { apply (HC _ _ _ _ _ H1). apply (IH m _ _ _ c' e'); auto. lia. }
      destruct greedy; apply orelse_not_none; auto.
Qed.

Lemma mandatory_complete (n : nat) :
  complete step R ->
  forall k c e c' e', power R n c e c' e' ->
    k c' e' <> None -> mandatory step n k c e <> None.
Proof.
  intros HC; induction n as [|n IH]; intros k c e c' e' HP Hk.
  - destruct HP as [-> ->]. exact Hk.
  - destruct HP as (c1 & e1 & H1 & H2). simpl.
    apply (HC _ _ _ _ _ H1). now apply (IH _ _ _ c' e').
Qed.

End Repetition.

(** Whatever the matcher returns came from a match of the pattern that
    the continuation accepted. *)
Lemma run_sound (r : re) : sound (run r) (den r).
Proof.
  induction r as [|p| | |r1 IH1 r2 IH2|r1 IH1 r2 IH2|name r1 IH1
                  |r1 IH1 lo hi greedy]; intros k c e x H; simpl in H.
  - exists c, e. simpl. auto.
  - destruct c as [n s]; simpl in *. destruct s as [|a s]; [discriminate|].
    destruct (p a) eqn:Hp; [|discriminate].
    exists (Cursor (S n) s), e. simpl. split; [|exact H]. now exists a.
  - destruct (pos c =? 0)%nat eqn:E; [|discriminate].
    apply Nat.eqb_eq in E. exists c, e. simpl. auto.
  - destruct (at_end (rest c)) eqn:E; [|discriminate].
    exists c, e. simpl. auto.
  - apply IH1 in H. destruct H as (c1 & e1 & H1 & H2).
    apply IH2 in H2. destruct H2 as (c' & e' & H2 & H3).
    exists c', e'. split; [|exact H3]. now exists c1, e1.
  - apply orelse_some in H. destruct H as [H|[_ H]].
    + apply IH1 in H. destruct H as (c' & e' & H1 & H2).
      exists c', e'. simpl. auto.
    + apply IH2 in H. destruct H as (c' & e' & H1 & H2).
      exists c', e'. simpl. auto.
  - apply IH1 in H. destruct H as (c' & e1 & H1 & H2).
    exists c', ((name, between c c') :: e1). split; [|exact H2].
    now exists e1.
  - apply (mandatory_sound _ _ lo IH1) in H.
    destruct H as (c1 & e1 & H1 & H2).
    apply (optional_sound _ _ _ greedy IH1) in H2.
    destruct H2 as (m & c' & e' & Hm & H2 & H3).
    exists c', e'. split; [|exact H3].
    exists (lo + m). split; [lia|]. now apply (power_add _ _ _ _ _ c1 e1).
Qed.

(** A match of the pattern that the continuation accepts makes the
    matcher return something. *)
Lemma run_complete (r : re) : complete (run r) (den r).
Proof.
  induction r as [|p| | |r1 IH1 r2 IH2|r1 IH1 r2 IH2|name r1 IH1
                  |r1 IH1 lo hi greedy]; intros k c e c' e' H Hk;
    simpl in H; simpl.
  - now destruct H as [-> ->].
  - destruct H as (a & H1 & H2 & H3 & ->). rewrite H1, H2.
    destruct c' as [n' s']; simpl in *. now rewrite <- H3.
  - destruct H as (H1 & -> & ->). now rewrite H1.
  - destruct H as (H1 & -> & ->). now rewrite H1.
  - destruct H as (c1 & e1 & H1 & H2).
    apply (IH1 _ _ _ _ _ H1). now apply (IH2 _ _ _ _ _ H2).
  - apply orelse_not_none. destruct H as [H|H]; [left | right].
    + now apply (IH1 _ _ _ _ _ H).
    + now apply (IH2 _ _ _ _ _ H).
  - destruct H as (e1 & H1 & ->). now apply (IH1 _ _ _ _ _ H1).
  - destruct H as (n & Hn & H).
    replace n with (lo + (n - lo)) in H by lia.
    apply power_split in H. destruct H as (c1 & e1 & H1 & H2).
    apply (mandatory_complete _ _ lo IH1 _ _ _ _ _ H1).
    apply (optional_complete _ _ _ greedy IH1 (n - lo) _ _ _ c' e');
      auto. lia.
Qed.

End ReFacts.

(** ** The grammar of the session header *)

Module Grammar.

Import Re ReFacts StrFacts.

Lemma cursor_eta (c : cursor) : Cursor (pos c) (rest c) = c.
Proof. now destruct c. Qed.

(** *** Lazy loops give the shortest run that lets the rest match *)

Lemma lazy_first (p : ascii -> bool) (n : nat) (k : kont) :
  forall c e x,
    optional (run (Chr p)) n false k c e = Some x ->
    exists w s',
      rest c = w ++ s' /\ Str.all p w = true
      /\ k (Cursor (pos c + String.length w) s') e = Some x
      /\ forall w1 w2, w = w1 ++ w2 -> w2 <> "" ->
           k (Cursor (pos c + String.length w1) (w2 ++ s')) e = None.
Proof.
  induction n as [|n IH]; intros [q s] e x H; simpl in H.
  - exists "", s. simpl. rewrite Nat.add_0_r. repeat split; auto.
    intros [|a w1] w2 E; simpl in E; [|discriminate]. congruence.
  - apply orelse_some in H. destruct H as [H|[H0 H]].
    + exists "", s. simpl. rewrite Nat.add_0_r. repeat split; auto.
      intros [|a w1] w2 E; simpl in E; [|discriminate]. congruence.
    + destruct s as [|a s]; [discriminate|].
      destruct (p a) eqn:Hp; [|discriminate].
      apply IH in H. simpl in H.
      destruct H as (w & s' & -> & Hw & Hk & Hmin).
      exists (String a w), s'. simpl. rewrite Hp, Hw.
      replace (q + S (String.length w)) with (S q + String.length w) by lia.
      repeat split; auto.
      intros [|b w1] w2 E Hne; simpl in E.
      * subst w2. simpl. now rewrite Nat.add_0_r.
      * injection E as <- ->. simpl.
        replace (q + S (String.length w1)) with (S q + String.length w1)
          by lia.
        now apply Hmin.
Qed.

(** *** What the pieces of the pattern match *)

Lemma den_lit (l : string) c e c' e' :
  den (lit l) c e c' e' ->
  rest c = l ++ rest c' /\ pos c' = pos c + String.length l /\ e' = e.
Proof.
  revert c e; induction l as [|a l IH]; intros c e; simpl.
  - intros [-> ->]. repeat split; auto.
  - intros (c1 & e1 & (b & H1 & H2 & H3 & ->) & H4).
    apply Ascii.eqb_eq in H2. subst b.
    apply IH in H4. destruct H4 as (H4 & H5 & ->).
    rewrite H1, H4, H5, H3. repeat split; auto; try lia.
Qed.

Lemma lit_den (l : string) (n : nat) (s : string) (e : env) :
  den (lit l) (Cursor n (l ++ s)) e (Cursor (n + String.length l) s) e.
Proof.
  revert n; induction l as [|a l IH]; intros n; simpl.
  - now rewrite Nat.add_0_r.
  - exists (Cursor (S n) (l ++ s)), e. split.
    + exists a. simpl. rewrite Ascii.eqb_refl. auto.
    + replace (n + S (String.length l)) with (S n + String.length l) by lia.
      apply IH.
Qed.

Lemma power_chr (p : ascii -> bool) (n : nat) c e c' e' :
  power (den (Chr p)) n c e c' e' ->
  exists w, String.length w = n /\ Str.all p w = true
            /\ rest c = w ++ rest c' /\ pos c' = pos c + n /\ e' = e.
Proof.
  revert c e; induction n as [|n IH]; intros c e; simpl.
  - intros [-> ->]. exists "". repeat split; auto.
  - intros (c1 & e1 & (a & H1 & H2 & H3 & ->) & H4).
    apply IH in H4. destruct H4 as (w & Hl & Hw & Hr & Hp & ->).
    exists (String a w). simpl. rewrite H1, Hr, H2, Hw, Hl, Hp, H3.
    repeat split; auto; try lia.
Qed.

Lemma chr_power (p : ascii -> bool) (w : string) (n : nat) (s : string)
      (e : env) :
  Str.all p w = true ->
  power (den (Chr p)) (String.length w) (Cursor n (w ++ s)) e
        (Cursor (n + String.length w) s) e.
Proof.
  revert n; induction w as [|a w IH]; intros n H; simpl in *.
  - now rewrite Nat.add_0_r.
  - apply andb_prop in H. destruct H as [Ha Hw].
    exists (Cursor (S n) (w ++ s)), e. split.
    + exists a. simpl. auto.
    + replace (n + S (String.length w)) with (S n + String.length w) by lia.
      now apply IH.
Qed.

Lemma segment_inv (g : string) :
  is_segment g = true ->
  exists a h, g = String a h /\ is_sep a = true /\ h <> ""
              /\ Str.all is_hex h = true.
Proof.
  destruct g as [|a h]; simpl; [discriminate|]. intros H.
  apply andb_prop in H. destruct H as [H H3].
  apply andb_prop in H. destruct H as [H1 H2].
  exists a, h. repeat split; auto.
  intros ->. discriminate.
Qed.

Lemma den_hex_suffix c e c' e' :
  den hex_suffix c e c' e' ->
  exists g, is_segment g = true /\ rest c = g ++ rest c'
            /\ pos c' = pos c + String.length g /\ e' = e.
Proof.
  unfold hex_suffix; simpl.
  intros (c1 & e1 & (a & H1 & H2 & H3 & ->) & n & Hn & H4).
  apply power_chr in H4. destruct H4 as (h & Hl & Hh & Hr & Hp & ->).
  exists (String a h). simpl. rewrite H1, Hr, H2, Hh, Hp, H3, Hl.
  destruct h; simpl in *; [lia|]. repeat split; auto; try lia.
Qed.

Lemma hex_suffix_den (g : string) (n : nat) (s : string) (e : env) :
  is_segment g = true ->
  den hex_suffix (Cursor n (g ++ s)) e (Cursor (n + String.length g) s) e.
Proof.
  intros H. apply segment_inv in H.
  destruct H as (a & h & -> & Ha & Hne & Hh).
  unfold hex_suffix; simpl.
  exists (Cursor (S n) (h ++ s)), e. split.
  - exists a. simpl. auto.
  - exists (String.length h). split.
    + unfold rounds; simpl. rewrite length_app.
      destruct h; [congruence|]. simpl. lia.
    + replace (n + S (String.length h)) with (S n + String.length h) by lia.
      now apply chr_power.
Qed.

Lemma power_hex_suffix (n : nat) c e c' e' :
  power (den hex_suffix) n c e c' e' ->
  exists l, length l = n /\ forallb is_segment l = true
            /\ rest c = Str.cat l ++ rest c' /\ e' = e.
Proof.
  revert c e; induction n as [|n IH]; intros c e; simpl.
  - intros [-> ->]. exists []. repeat split; auto.
  - intros (c1 & e1 & H1 & H2).
    apply den_hex_suffix in H1. destruct H1 as (g & Hg & Hr & _ & ->).
    apply IH in H2. destruct H2 as (l & Hl & Hf & Hr' & ->).
    exists (g :: l). simpl. rewrite Hg, Hf, Hl, Hr, Hr', app_assoc.
    repeat split; auto.
Qed.

Lemma hex_suffix_power (l : list string) (n : nat) (s : string) (e : env) :
  forallb is_segment l = true ->
  power (den hex_suffix) (length l) (Cursor n (Str.cat l ++ s)) e
        (Cursor (n + String.length (Str.cat l)) s) e.
Proof.
  revert n; induction l as [|g l IH]; intros n H; simpl in *.
  - now rewrite Nat.add_0_r.
  - apply andb_prop in H. destruct H as [Hg Hl].
    exists (Cursor (n + String.length g) (Str.cat l ++ s)), e. split.
    + rewrite app_assoc. now apply hex_suffix_den.
    + rewrite length_app, Nat.add_assoc. now apply IH.
Qed.

Lemma den_suffixes c e c' e' :
  den suffixes c e c' e' ->
  exists sfx, stripped 2 sfx /\ rest c = sfx ++ rest c'
              /\ at_end (rest c') = true /\ e' = e.
Proof.
  unfold suffixes; simpl.
  intros (c1 & e1 & (n & Hn & H1) & H2 & -> & ->).
  apply power_hex_suffix in H1. destruct H1 as (l & Hl & Hf & Hr & ->).
  exists (Str.cat l). repeat split; auto.
  exists l. repeat split; auto; try lia.
Qed.

Lemma suffixes_den (sfx nl : string) (n : nat) (e : env) :
  stripped 2 sfx -> at_end nl = true ->
  exists c', den suffixes (Cursor n (sfx ++ nl)) e c' e.
Proof.
  intros (l & Hl & Hf & ->) Hnl.
  exists (Cursor (n + String.length (Str.cat l)) nl).
  unfold suffixes; simpl.
  exists (Cursor (n + String.length (Str.cat l)) nl), e. split.
  - exists (length l). split; [lia|]. now apply hex_suffix_power.
  - simpl. auto.
Qed.

(** *** Building matches *)

Lemma den_seq r1 r2 c e c1 e1 c' e' :
  den r1 c e c1 e1 -> den r2 c1 e1 c' e' -> den (Seq r1 r2) c e c' e'.
Proof. intros H1 H2. now exists c1, e1. Qed.

Lemma den_group name r c e c' e1 :
  den r c e c' e1 -> den (Group name r) c e c' ((name, between c c') :: e1).
Proof. intros H. now exists e1. Qed.

Lemma den_rep r lo hi greedy n c e c' e' :
  lo <= n <= lo + rounds lo hi c -> power (den r) n c e c' e' ->
  den (Rep r lo hi greedy) c e c' e'.
Proof. intros H1 H2. now exists n. Qed.

Lemma between_app (c : cursor) (w s' : string) :
  rest c = w ++ s' -> between c (Cursor (pos c + String.length w) s') = w.
Proof.
  intros H. unfold between; simpl.
  replace (pos c + String.length w - pos c) with (String.length w) by lia.
  rewrite H. apply take_app.
Qed.

(** *** The two lazy groups *)

Lemma star_lazy_inv (p : ascii -> bool) (k : kont) c e x :
  run (Rep (Chr p) 0 None false) k c e = Some x ->
  exists w s',
    rest c = w ++ s' /\ Str.all p w = true
    /\ k (Cursor (pos c + String.length w) s') e = Some x
    /\ forall w1 w2, w = w1 ++ w2 -> w2 <> "" ->
         k (Cursor (pos c + String.length w1) (w2 ++ s')) e = None.
Proof. intros H. now apply lazy_first in H. Qed.

Lemma plus_lazy_inv (p : ascii -> bool) (k : kont) c e x :
  run (Rep (Chr p) 1 None false) k c e = Some x ->
  exists w s',
    w <> "" /\ rest c = w ++ s' /\ Str.all p w = true
    /\ k (Cursor (pos c + String.length w) s') e = Some x
    /\ forall w1 w2, w1 <> "" -> w = w1 ++ w2 -> w2 <> "" ->
         k (Cursor (pos c + String.length w1) (w2 ++ s')) e = None.
Proof.
  intros H.
  change (run (Chr p)
              (optional (run (Chr p)) (String.length (rest c)) false k) c e
          = Some x) in H.
  destruct c as [q s]; simpl in H.
  destruct s as [|a s]; [discriminate|].
  destruct (p a) eqn:Hp; [|discriminate].
  apply lazy_first in H. simpl in H.
  destruct H as (w & s' & -> & Hw & Hk & Hmin).
  exists (String a w), s'. simpl. rewrite Hp, Hw.
  replace (q + S (String.length w)) with (S q + String.length w) by lia.
  repeat split; auto; try discriminate.
  intros [|b w1] w2 Hne E Hne2; [congruence|]. simpl in E.
  injection E as <- ->. simpl.
  replace (q + S (String.length w1)) with (S q + String.length w1) by lia.
  now apply Hmin.
Qed.

Lemma id_part_den (i sfx nl : string) (n : nat) (e : env) :
  i <> "" -> Str.all dot i = true -> stripped 2 sfx -> at_end nl = true ->
  exists c' e', den id_part (Cursor n (i ++ sfx ++ nl)) e c' e'.
Proof.
  intros Hne Hi Hs Hnl.
  destruct (suffixes_den sfx nl (n + String.length i)
              (("session_id",
                between (Cursor n (i ++ sfx ++ nl))
                        (Cursor (n + String.length i) (sfx ++ nl))) :: e)
              Hs Hnl) as (c' & D).
  exists c'. eexists. unfold id_part.
  eapply den_seq; [|exact D].
  apply den_group. apply (den_rep _ _ _ _ (String.length i)).
  - unfold rounds; simpl. rewrite length_app.
    destruct i; [congruence|]. simpl. lia.
  - now apply chr_power.
Qed.

Lemma id_part_inv c e x :
  run id_part done c e = Some x ->
  exists i sfx nl,
    rest c = i ++ sfx ++ nl /\ i <> "" /\ Str.all dot i = true
    /\ stripped 2 sfx /\ at_end nl = true /\ minimal i sfx
    /\ x = ("session_id", i) :: e.
Proof.
  intros H.
  change (run (Rep (Chr dot) 1 None false)
              (fun c' e' =>
                 run suffixes done c' (("session_id", between c c') :: e'))
              c e = Some x) in H.
  apply plus_lazy_inv in H.
  destruct H as (i & s' & Hne & Hr & Hi & Hk & Hmin).
  rewrite (between_app _ _ _ Hr) in Hk.
  apply run_sound in Hk. destruct Hk as (c4 & e4 & D & Hx).
  apply den_suffixes in D. simpl in D.
  destruct D as (sfx & Hs & -> & Hnl & ->).
  injection Hx as <-.
  exists i, sfx, (rest c4). repeat split; auto.
  intros i1 sfx1 Hne1 Hs1 E.
  destruct (app_eq_app _ _ _ _ E) as [m [[-> _]|[-> ->]]].
  - rewrite length_app. lia.
  - destruct m as [|b m].
    + rewrite app_nil_r. lia.
    + exfalso.
      specialize (Hmin i1 (String b m) Hne1 eq_refl ltac:(discriminate)).
      cbv beta in Hmin.
      destruct (suffixes_den _ (rest c4) (pos c + String.length i1)
                  (("session_id",
                    between c (Cursor (pos c + String.length i1)
                                      (String b m ++ sfx ++ rest c4))) :: e)
                  Hs1 Hnl) as (c' & D).
      rewrite app_assoc in D.
      apply (run_complete suffixes done _ _ _ _ D); [discriminate|].
      exact Hmin.
Qed.

Lemma no_colon (w : string) :
  (forall w1 w2, w <> w1 ++ String ":"%char w2) ->
  Str.all not_colon w = true.
Proof.
  induction w as [|a w IH]; intros H; simpl; [reflexivity|].
  apply andb_true_intro. split.
  - unfold not_colon. destruct (Ascii.eqb_spec a ":"%char) as [->|]; auto.
    exfalso. now apply (H "" w).
  - apply IH. intros w1 w2 ->. now apply (H (String a w1) w2).
Qed.

Lemma realm_part_inv c e x :
  run realm_part done c e = Some x ->
  exists r i sfx nl,
    rest c = r ++ ":" ++ i ++ sfx ++ nl
    /\ Str.all dot r = true /\ Str.all not_colon r = true
    /\ i <> "" /\ Str.all dot i = true
    /\ stripped 2 sfx /\ at_end nl = true /\ minimal i sfx
    /\ x = ("session_id", i) :: ("realm", r) :: e.
Proof.
  intros H.
  change (run (Rep (Chr dot) 0 None false)
              (fun c' e' =>
                 run (Seq (lit ":") id_part) done c'
                     (("realm", between c c') :: e'))
              c e = Some x) in H.
  apply star_lazy_inv in H.
  destruct H as (r & s' & Hr & Hd & Hk & Hmin).
  rewrite (between_app _ _ _ Hr) in Hk.
  change (run (lit ":") (run id_part done)
              (Cursor (pos c + String.length r) s') (("realm", r) :: e)
          = Some x) in Hk.
  apply run_sound in Hk. destruct Hk as (c2 & e2 & D & Hk).
  apply den_lit in D. simpl in D. destruct D as (-> & Hp & ->).
  apply id_part_inv in Hk.
  destruct Hk as (i & sfx & nl & Hi & Hne & Hdi & Hs & Hnl & Hm & ->).
  exists r, i, sfx, nl. rewrite Hi in *. repeat split; auto.
  apply no_colon. intros w1 w2 ->.
  specialize (Hmin w1 (String ":"%char w2) eq_refl ltac:(discriminate)).
  cbv beta in Hmin.
  assert (Hi' : w2 ++ ":" ++ i <> "") by (destruct w2; discriminate).
  assert (Hd' : Str.all dot (w2 ++ ":" ++ i) = true).
  { rewrite all_app in Hd. apply andb_prop in Hd. destruct Hd as [_ Hd].
    simpl in Hd. rewrite all_app, Hd. simpl. exact Hdi. }
  destruct (id_part_den _ sfx nl (pos c + String.length w1 + 1)
              (("realm",
                between c (Cursor (pos c + String.length w1)
                                  (String ":"%char w2 ++ ":" ++ i ++ sfx ++ nl)))
                 :: e) Hi' Hd' Hs Hnl)
    as (c' & e' & D).
  rewrite !app_assoc in D.
  refine (run_complete (Seq (lit ":") id_part) done _ _ _ _ _ _ Hmin);
    [|discriminate].
  eapply den_seq; [|exact D].
  apply (lit_den ":").
Qed.

(** *** The whole pattern *)

Lemma match_inv (s : string) (x : env) :
  match_ HTTP_SESSION_ID_REGEX s = Some x ->
  exists t r i sfx nl,
    parses s t r i sfx nl
    /\ x = [("session_id", i); ("realm", r); ("type", t)].
Proof.
  unfold match_. intros H.
  change (run Bol
            (run (lit "SID:")
               (run (Group "type" (Alt (lit "ANON") (lit "AUTH")))
                  (run (lit ":") (run realm_part done))))
            (Cursor 0 s) [] = Some x) in H.
  apply run_sound in H. destruct H as (c1 & e1 & (_ & -> & ->) & H).
  apply run_sound in H. destruct H as (c2 & e2 & D & H).
  apply den_lit in D. simpl in D. destruct D as (Hs & Hp2 & ->).
  apply run_sound in H. destruct H as (c3 & e3 & (e3' & D & ->) & H).
  assert (exists t, (t = "ANON" \/ t = "AUTH") /\ rest c2 = t ++ rest c3
                    /\ pos c3 = pos c2 + String.length t /\ e3' = [])
    as (t & Ht & Hr2 & Hp3 & ->).
  { destruct D as [D|D]; apply den_lit in D; destruct D as (D1 & D2 & D3);
      [exists "ANON" | exists "AUTH"]; auto. }
  assert (Hb : between c2 c3 = t).
  { rewrite <- (cursor_eta c3), Hp3. now apply between_app. }
  rewrite Hb in H.
  apply run_sound in H. destruct H as (c4 & e4 & D4 & H).
  apply den_lit in D4. destruct D4 as (Hr3 & _ & ->).
  apply realm_part_inv in H.
  destruct H as (r & i & sfx & nl & Hr4 & Hrd & Hrc & Hne & Hid & Hsf & Hnl
                 & Hm & ->).
  exists t, r, i, sfx, nl. split; [|reflexivity].
  constructor; auto.
  rewrite Hs, Hr2, Hr3, Hr4. unfold wire. now rewrite !app_assoc.
Qed.

Lemma sep_dot (a : ascii) : is_sep a = true -> dot a = true.
Proof.
  unfold dot. destruct (Ascii.eqb_spec a LF) as [->|]; [discriminate | auto].
Qed.

Lemma hex_dot (a : ascii) : is_hex a = true -> dot a = true.
Proof.
  unfold dot. destruct (Ascii.eqb_spec a LF) as [->|]; [discriminate | auto].
Qed.

Lemma all_hex_dot (h : string) :
  Str.all is_hex h = true -> Str.all dot h = true.
Proof.
  induction h as [|a h IH]; simpl; [auto|]. intros H.
  apply andb_prop in H. destruct H as [Ha Hh].
  now rewrite (hex_dot _ Ha), IH.
Qed.

Lemma stripped_dot (n : nat) (sfx : string) :
  stripped n sfx -> Str.all dot sfx = true.
Proof.
  intros (l & _ & Hf & ->). induction l as [|g l IH]; simpl in *; [auto|].
  apply andb_prop in Hf. destruct Hf as [Hg Hl].
  apply segment_inv in Hg. destruct Hg as (a & h & -> & Ha & _ & Hh).
  rewrite all_app, IH by exact Hl. simpl.
  now rewrite (sep_dot _ Ha), (all_hex_dot _ Hh).
Qed.

(** Where a string without line feeds ends and the tolerated line feed
    starts is determined. *)
Lemma end_unique (u u' nl nl' : string) :
  Str.all dot u = true -> Str.all dot u' = true ->
  at_end nl = true -> at_end nl' = true ->
  u ++ nl = u' ++ nl' -> u = u' /\ nl = nl'.
Proof.
  assert (L : forall a v n, dot a = true -> at_end n = true ->
                            n <> String a v).
  { intros a v n Ha Hn ->. destruct v; simpl in Hn; [|discriminate].
    unfold dot in Ha. fold LF in Hn. now rewrite Hn in Ha. }
  revert u'; induction u as [|a u IH]; intros [|b u'] Hu Hu' Hn Hn' E;
    simpl in *.
  - now split.
  - apply andb_prop in Hu'. destruct Hu' as [Hb _].
    now destruct (L _ _ _ Hb Hn E).
  - apply andb_prop in Hu. destruct Hu as [Ha _].
    now destruct (L _ _ _ Ha Hn' (eq_sym E)).
  - apply andb_prop in Hu. destruct Hu as [_ Hu].
    apply andb_prop in Hu'. destruct Hu' as [_ Hu'].
    injection E as -> E. destruct (IH _ Hu Hu' Hn Hn' E) as [-> ->].
    now split.
Qed.

(** The first colon is where a colon-free prefix ends. *)
Lemma first_colon (r r' x x' : string) :
  Str.all not_colon r = true -> Str.all not_colon r' = true ->
  r ++ String ":"%char x = r' ++ String ":"%char x' -> r = r' /\ x = x'.
Proof.
  revert r'; induction r as [|a r IH]; intros [|b r'] Hr Hr' E; simpl in *.
  - injection E as ->. now split.
  - injection E as <- _. discriminate.
  - injection E as -> _. discriminate.
  - apply andb_prop in Hr. destruct Hr as [_ Hr].
    apply andb_prop in Hr'. destruct Hr' as [_ Hr'].
    injection E as -> E. destruct (IH _ Hr Hr' E) as [-> ->]. now split.
Qed.

Lemma parses_unique (s t r i sfx nl t' r' i' sfx' nl' : string) :
  parses s t r i sfx nl -> parses s t' r' i' sfx' nl' ->
  t = t' /\ r = r' /\ i = i' /\ sfx = sfx' /\ nl = nl'.
Proof.
  intros [Hw Ht Hrd Hrc Hne Hid Hs Hnl Hm] [Hw' Ht' Hrd' Hrc' Hne' Hid' Hs' Hnl' Hm'].
  rewrite Hw in Hw'. unfold wire in Hw'. rewrite !app_assoc in Hw'.
  assert (t = t' /\ r ++ ":" ++ i ++ sfx ++ nl = r' ++ ":" ++ i' ++ sfx' ++ nl')
    as [<- E].
  { destruct Ht as [-> | ->], Ht' as [-> | ->]; simpl in Hw';
      try discriminate; injection Hw' as E; now split. }
  apply first_colon in E; auto. destruct E as [<- E].
  rewrite <- !app_assoc in E.
  apply end_unique in E; auto;
    try (rewrite all_app; apply andb_true_intro; split; auto;
         eapply stripped_dot; eassumption).
  destruct E as [E <-].
  assert (String.length i = String.length i') as L.
  { apply Nat.le_antisymm; [apply (Hm i' sfx') | apply (Hm' i sfx)]; auto. }
  destruct (app_eq_length _ _ _ _ E L) as [<- <-]. repeat split; auto.
Qed.

Lemma match_intro (s t r i sfx nl : string) :
  parses s t r i sfx nl ->
  match_ HTTP_SESSION_ID_REGEX s
  = Some [("session_id", i); ("realm", r); ("type", t)].
Proof.
  intros P.
  destruct (match_ HTTP_SESSION_ID_REGEX s) as [x|] eqn:E.
  - apply match_inv in E. destruct E as (t' & r' & i' & sfx' & nl' & P' & ->).
    destruct (parses_unique _ _ _ _ _ _ _ _ _ _ _ P P')
      as (-> & -> & -> & _). reflexivity.
  - exfalso. destruct P as [Hw Ht Hrd Hrc Hne Hid Hs Hnl Hm].
    destruct (id_part_den i sfx nl (9 + String.length r + 1)
                (("realm",
                  between (Cursor 9 (r ++ ":" ++ i ++ sfx ++ nl))
                          (Cursor (9 + String.length r)
                                  (":" ++ i ++ sfx ++ nl)))
                   :: [("type", t)]) Hne Hid Hs Hnl)
      as (c' & e' & D).
    set (X := ":" ++ r ++ ":" ++ i ++ sfx ++ nl) in *.
    assert (Hb : between (Cursor 4 (t ++ X)) (Cursor 8 X) = t)
      by (destruct Ht as [-> | ->]; reflexivity).
    assert (Da : den (Alt (lit "ANON") (lit "AUTH"))
                     (Cursor 4 (t ++ X)) [] (Cursor 8 X) []).
    { destruct Ht as [-> | ->];
        [left; exact (lit_den "ANON" 4 X []) |
         right; exact (lit_den "AUTH" 4 X [])]. }
    apply (den_group "type") in Da. rewrite Hb in Da.
    assert (D0 : den (lit "SID:") (Cursor 0 s) [] (Cursor 4 (t ++ X)) []).
    { rewrite Hw. unfold wire, X. rewrite !app_assoc.
      apply (lit_den "SID:"). }
    refine (run_complete HTTP_SESSION_ID_REGEX done _ _ c' e' _ _ E);
      [|discriminate].
    unfold HTTP_SESSION_ID_REGEX.
    apply (den_seq _ _ _ _ (Cursor 0 s) []); [simpl; auto|].
    eapply den_seq; [exact D0|].
    eapply den_seq; [exact Da|].
    eapply den_seq; [apply (lit_den ":" 8)|].
    unfold realm_part.
    eapply den_seq.
    { apply den_group.
      apply (den_rep _ _ _ _ (String.length r)).
      - unfold rounds; simpl. rewrite length_app. lia.
      - apply chr_power. exact Hrd. }
    eapply den_seq; [apply (lit_den ":")|].
    exact D.
Qed.

End Grammar.

(** ** The parser *)

Module Parser.

Import Re ReFacts StrFacts Grammar.

Lemma parse_header_inv (s : string) (p : dict) :
  parse_header s = Some p ->
  exists t r i sfx nl, parses s t r i sfx nl /\ p = reference t r i.
Proof.
  unfold parse_header.
  destruct (match_ HTTP_SESSION_ID_REGEX s) as [x|] eqn:E; [|discriminate].
  intros [= <-]. apply match_inv in E.
  destruct E as (t & r & i & sfx & nl & P & ->).
  exists t, r, i, sfx, nl. split; [exact P | reflexivity].
Qed.

Lemma parse_header_intro (s t r i sfx nl : string) :
  parses s t r i sfx nl -> parse_header s = Some (reference t r i).
Proof.
  intros P. unfold parse_header. now rewrite (match_intro _ _ _ _ _ _ P).
Qed.

Lemma render_reference (t r i : string) :
  render (reference t r i) = Ok (wire t r i).
Proof. unfold render, wire. cbn. now rewrite app_nil_r. Qed.

Lemma at_end_cases (nl : string) :
  at_end nl = true -> nl = "" \/ nl = String LF "".
Proof.
  destruct nl as [|a [|b nl]]; simpl; intros H; try discriminate; auto.
  apply Ascii.eqb_eq in H. subst a. now right.
Qed.

Lemma segment_ends (p g : string) :
  is_segment g = true -> ends_with_segment (p ++ g) = true.
Proof.
  intros H. induction p as [|a p IH]; simpl.
  - destruct g as [|b g]; [discriminate|].
    change (is_segment (String b g) || ends_with_segment g = true).
    now rewrite H.
  - rewrite IH. apply orb_true_r.
Qed.

Lemma stripped_ends (n : nat) (p sfx : string) :
  stripped n sfx -> sfx <> "" -> ends_with_segment (p ++ sfx) = true.
Proof.
  intros (l & _ & Hf & ->).
  revert p; induction l as [|g l IH]; intros p Hne; simpl in *;
    [congruence|].
  apply andb_prop in Hf. destruct Hf as [Hg Hl].
  destruct (Str.cat l) as [|b m] eqn:E.
  - rewrite app_nil_r. now apply segment_ends.
  - rewrite <- app_assoc. apply IH; [exact Hl | discriminate].
Qed.

(** An identifier that does not end in a suffix is as short as the
    matcher can make it. *)
Lemma plain_minimal (i : string) :
  ends_with_segment i = false -> minimal i "".
Proof.
  intros H i1 sfx1 _ Hs E. rewrite app_nil_r in E. subst i.
  destruct sfx1 as [|b m]; [rewrite app_nil_r; lia|].
  rewrite (stripped_ends 2 i1 (String b m) Hs) in H; discriminate.
Qed.

Lemma parse_wire (t r i : string) :
  t = "ANON" \/ t = "AUTH" ->
  Str.all not_colon r = true -> Str.all dot r = true ->
  i <> "" -> Str.all dot i = true -> ends_with_segment i = false ->
  parse_header (wire t r i) = Some (reference t r i).
Proof.
  intros Ht Hrc Hrd Hne Hid He.
  apply (parse_header_intro _ _ _ _ "" "").
  constructor; auto.
  - now rewrite !app_nil_r.
  - exists []. repeat split; simpl; auto.
  - now apply plain_minimal.
Qed.

Lemma count_app (p : ascii -> bool) (a b : string) :
  Str.count p (a ++ b) = Str.count p a + Str.count p b.
Proof.
  induction a as [|x a IH]; simpl; [reflexivity|]. rewrite IH. lia.
Qed.

End Parser.

(** ** Properties of the parser *)

Section ParserProperties.

Import Re StrFacts Grammar Parser.

(** C1, amended.  One parse strips at most two trailing suffixes (a
    separator and hexadecimal digits each) from the identifier, however
    many the header carries, and with them the one final line feed that
    [$] lets through.  Parsing the rendered result again strips nothing
    further when the identifier obtained does not itself end in such a
    suffix. *)
Theorem C1_strips_at_most_two (s : string) (p : dict) :
  parse_header s = Some p ->
  exists t r i sfx nl,
    p = reference t r i
    /\ s = wire t r i ++ sfx ++ nl
    /\ stripped 2 sfx
    /\ (nl = "" \/ nl = String LF "")
    /\ (ends_with_segment i = false ->
        parse_header (wire t r i) = Some p).
Proof.
  intros H. apply parse_header_inv in H.
  destruct H as (t & r & i & sfx & nl & [Hw Ht Hrd Hrc Hne Hid Hs Hnl Hm] & ->).
  exists t, r, i, sfx, nl. repeat split; auto.
  - now apply at_end_cases.
  - intros He. now apply parse_wire.
Qed.

Lemma C1_strips_at_most_two_witness :
  exists t r i sfx nl,
    reference "ANON" "example.com" "98717" = reference t r i
    /\ "SID:ANON:example.com:98717-16EF:100" = wire t r i ++ sfx ++ nl
    /\ stripped 2 sfx
    /\ (nl = "" \/ nl = String LF "")
    /\ (ends_with_segment i = false ->
        parse_header (wire t r i)
        = Some (reference "ANON" "example.com" "98717")).
Proof.
  apply (C1_strips_at_most_two "SID:ANON:example.com:98717-16EF:100").
  reflexivity.
Defined.

(** C1 as stated fails: of three suffixes the parser strips two, and
    parsing the rendered result strips the third. *)
Lemma C1_second_parse_strips_again :
  parse_header "SID:ANON:r:a-1-2-3" = Some (reference "ANON" "r" "a-1")
  /\ render (reference "ANON" "r" "a-1") = Ok "SID:ANON:r:a-1"
  /\ parse_header "SID:ANON:r:a-1" = Some (reference "ANON" "r" "a")
  /\ reference "ANON" "r" "a" <> reference "ANON" "r" "a-1".
Proof. repeat split; try reflexivity. discriminate. Qed.


(** C3.  An absent header, the empty string, a string that does not
    start with [SID:], a type segment other than [ANON] and [AUTH]
    (letter case counts), and a string with fewer than three colons (so
    with fewer than three segments after [SID]) all give [None]; the
    parser is a total function and has no other outcome. *)
Theorem C3_no_match_is_none :
  (forall req, getitem (META req) "HTTP_SESSION_ID" = None ->
               parse_session_id req = None)
  /\ parse_header "" = None
  /\ (forall s, Str.startswith s "SID:" = false -> parse_header s = None)
  /\ (forall ty rest,
         ty <> "ANON" -> ty <> "AUTH" -> Str.all not_colon ty = true ->
         parse_header ("SID:" ++ ty ++ ":" ++ rest) = None)
  /\ (forall s, Str.count is_colon s < 3 -> parse_header s = None).
Proof.
  split; [|split; [reflexivity|split; [|split]]].
  - intros req H. unfold parse_session_id. now rewrite H.
  - intros s H. destruct (parse_header s) as [p|] eqn:E; [|reflexivity].
    apply parse_header_inv in E.
    destruct E as (t & r & i & sfx & nl & [Hw _ _ _ _ _ _ _ _] & _).
    subst s. unfold wire, Str.startswith in H. rewrite !app_assoc in H.
    simpl in H. discriminate H.
  - intros ty rest H1 H2 H3.
    destruct (parse_header _) as [p|] eqn:E; [|reflexivity].
    apply parse_header_inv in E.
    destruct E as (t & r & i & sfx & nl & [Hw Ht _ _ _ _ _ _ _] & _).
    unfold wire in Hw. rewrite !app_assoc in Hw. simpl in Hw.
    injection Hw as Hw. apply first_colon in Hw; auto.
    + destruct Hw as [-> _]. tauto.
    + destruct Ht as [-> | ->]; reflexivity.
  - intros s H. destruct (parse_header s) as [p|] eqn:E; [|reflexivity].
    apply parse_header_inv in E.
    destruct E as (t & r & i & sfx & nl & [Hw _ _ _ _ _ _ _ _] & _).
    subst s. unfold wire in H. rewrite !count_app in H. simpl in H. lia.
Qed.

Lemma C3_no_match_is_none_witness :
  parse_session_id (Request "/api/" [] None None false) = None
  /\ parse_header "ENTIREGABRBAGE" = None
  /\ parse_header "SID:anon:example.com:987171879" = None
  /\ parse_header "SID:ANON:987171879" = None.
Proof.
  destruct C3_no_match_is_none as (H1 & _ & H2 & H3 & H4).
  split; [|split; [|split]].
  - apply H1. reflexivity.
  - apply H2. reflexivity.
  - apply (H3 "anon" "example.com:987171879");
      [discriminate | discriminate | reflexivity].
  - apply H4. simpl. lia.
Defined.

(** C4, amended.  For a type [ANON] or [AUTH], a realm (possibly empty)
    without colon and line feed, and a non-empty identifier without line
    feed that does not end in a separator followed by hexadecimal
    digits, parsing [SID:<type>:<realm>:<sessionId>] gives back exactly
    the three fields. *)
Theorem C4_fields_recovered (t r i : string) :
  t = "ANON" \/ t = "AUTH" ->
  Str.all not_colon r = true -> Str.all dot r = true ->
  i <> "" -> Str.all dot i = true -> ends_with_segment i = false ->
  parse_header (wire t r i) = Some (reference t r i).
Proof. apply parse_wire. Qed.

Lemma C4_fields_recovered_witness :
  parse_header (wire "AUTH" "" "923-thread1")
  = Some (reference "AUTH" "" "923-thread1").
Proof.
  apply C4_fields_recovered;
    [right; reflexivity | reflexivity | reflexivity | discriminate
     | reflexivity | reflexivity].
Defined.

(** C4 as stated fails: a realm with a colon is cut at its first colon,
    and a line feed that ends the identifier is dropped. *)
Lemma C4_realm_with_colon :
  "xyz" <> "" /\ ends_with_segment "xyz" = false
  /\ parse_header (wire "ANON" "a:b" "xyz")
     = Some (reference "ANON" "a" "b:xyz")
  /\ reference "ANON" "a" "b:xyz" <> reference "ANON" "a:b" "xyz"
  /\ ends_with_segment ("abc" ++ String LF "") = false
  /\ parse_header (wire "ANON" "r" ("abc" ++ String LF ""))
     = Some (reference "ANON" "r" "abc").
Proof. repeat split; try reflexivity; discriminate. Qed.

End ParserProperties.

(** ** Properties of the middleware *)

Section MiddlewareProperties.

Import StrFacts Parser.
Context (host : Host).

Lemma detail_format (realm domain : string) :
  Fmt.percent (ugettext "Can not accept cookie with realm %s on realm %s")
              (Fmt.Tuple [realm; domain])
  = Ok (mismatch_detail realm domain).
Proof. unfold mismatch_detail. cbn. now rewrite app_nil_r. Qed.

Lemma reason_format (detail : string) :
  Fmt.percent reason_template (Fmt.Tuple [detail]) = Ok (reason_body detail).
Proof. reflexivity. Qed.

(** What the orchestrator does with a reference of another realm. *)
Lemma process_request_mismatch (req : request) (w : world) (t r i : string) :
  is_api_request req = true ->
  parse_session_id req = Some (reference t r i) ->
  r <> get_domain req ->
  HeaderSessionMiddleware.process_request req w
  = (Ok (Some (Response 406 (reason_body (mismatch_detail r (get_domain req)))
                        "application/json" [])),
     req, w).
Proof.
  intros Ha Hp Hr. unfold HeaderSessionMiddleware.process_request.
  rewrite Ha, Hp. unfold HeaderSessionMiddleware.bind_session.
  change (getitem (reference t r i) "realm") with (Some r).
  cbv beta iota zeta.
  apply String.eqb_neq in Hr. rewrite Hr. cbn [negb].
  rewrite detail_format.
  unfold HeaderSessionMiddleware.handle. cbn [api_exception].
  now rewrite reason_format.
Qed.


(** C6.  For a session id that the store does not hold, an [ANON]
    resume asks [get_session] not to raise and obtains a new session
    whose key is the requested id, which the store then holds; an [AUTH]
    resume asks it to raise and fails with [SessionNotFound], and the
    store holds no more than before. *)
Theorem C6_resume_by_type (session_id : string) (w : world) :
  existsb (String.eqb session_id) (sessions w) = false ->
  (exists s w',
      start_or_resume session_id "ANON" w = (Ok s, w')
      /\ session_key s = session_id /\ is_new s = true
      /\ sessions w' = session_id :: sessions w
      /\ resumptions w' = (session_id, false) :: resumptions w)
  /\ (exists w',
         start_or_resume session_id "AUTH" w = (Raised SessionNotFound, w')
         /\ sessions w' = sessions w
         /\ resumptions w' = (session_id, true) :: resumptions w).
Proof.
  intros H. unfold start_or_resume, get_session. cbn [String.eqb]. simpl.
  rewrite H. split.
  - eexists. eexists. repeat split.
  - eexists. repeat split.
Qed.

(** C7.  The writer sets the header only for an API request that has
    both a session and a parsed reference; otherwise the response goes
    to the cookie middleware as it is.  When it does write, a session
    key other than the identifier of the reference is an
    [AssertionError], raised before anything is written; with an equal
    one the header [Session-Id] is set to [SID:<type>:<realm>:<sessionId>],
    unless that value holds a carriage return or a line feed, which
    Django refuses with [BadHeaderError]. *)
Theorem C7_writer_guard_and_assertion (req : request) (resp : response) :
  ((is_api_request req = false \/ session req = None
    \/ parsed_session_uri req = None) ->
   HeaderSessionMiddleware.process_response req resp
   = Ok (cookie_process_response req resp))
  /\ (forall s t r i,
         is_api_request req = true -> session req = Some s ->
         parsed_session_uri req = Some (reference t r i) ->
         (session_key s <> i ->
          HeaderSessionMiddleware.process_response req resp
          = Raised (AssertionError
                      (session_key s ++ " is not equal to " ++ i)))
         /\ (session_key s = i ->
             HeaderSessionMiddleware.process_response req resp
             = if Str.all header_char (wire t r i)
               then Ok (cookie_process_response req
                          (set_header resp "Session-Id" (wire t r i)))
               else Raised BadHeaderError)
         /\ get_header (set_header resp "Session-Id" (wire t r i))
                       "Session-Id"
            = Some (wire t r i)).
Proof.
  unfold HeaderSessionMiddleware.process_response. split.
  - intros [H|[H|H]]; rewrite H; [reflexivity| |].
    + now destruct (is_api_request req).
    + now destruct (is_api_request req), (session req).
  - intros s t r i Ha Hs Hp. rewrite Ha, Hs, Hp.
    change (session_id_from_parsed_session_uri (reference t r i))
      with (@Ok string i).
    cbv iota beta. split; [|split]; [intros H | intros H | reflexivity].
    + apply String.eqb_neq in H. now rewrite H.
    + apply String.eqb_eq in H. rewrite H, render_reference.
      unfold with_session_id.
      now destruct (Str.all header_char (wire t r i)).
Qed.


(** C10.  On the mismatch path the orchestrator leaves the request as
    it found it: no session is bound, no parsed reference is attached
    and the flag that switches the CSRF check off is not set. *)
Theorem C10_mismatch_leaves_request (req : request) (w : world)
        (t r i : string) :
  is_api_request req = true ->
  parse_session_id req = Some (reference t r i) ->
  r <> get_domain req ->
  let req' := snd (fst (HeaderSessionMiddleware.process_request req w)) in
  req' = req
  /\ session req' = session req
  /\ parsed_session_uri req' = parsed_session_uri req
  /\ csrf_processing_done req' = csrf_processing_done req.
Proof.
  intros Ha Hp Hr. rewrite (process_request_mismatch _ w _ _ _ Ha Hp Hr).
  simpl. repeat split.
Qed.

End MiddlewareProperties.

(** ** The middleware at work *)

Section Runs.

Import Example.


Lemma C6_resume_by_type_witness :
  (exists s w',
      start_or_resume "987171879" "ANON" empty_world = (Ok s, w')
      /\ session_key s = "987171879" /\ is_new s = true
      /\ sessions w' = ["987171879"]
      /\ resumptions w' = [("987171879", false)])
  /\ (exists w',
         start_or_resume "987171879" "AUTH" empty_world
         = (Raised SessionNotFound, w')
         /\ sessions w' = []
         /\ resumptions w' = [("987171879", true)]).
Proof.
  apply (C6_resume_by_type "987171879" empty_world). reflexivity.
Defined.

Lemma C7_writer_guard_and_assertion_witness :
  HeaderSessionMiddleware.process_response
    (Request "/shop/" [] None None false) ok_response
  = Ok ok_response
  /\ HeaderSessionMiddleware.process_response (bound "elsewhere") ok_response
     = Raised (AssertionError "elsewhere is not equal to 987171879")
  /\ HeaderSessionMiddleware.process_response (bound "987171879") ok_response
     = Ok (set_header ok_response "Session-Id"
                      "SID:ANON:example.com:987171879")
  /\ get_header (set_header ok_response "Session-Id"
                            "SID:ANON:example.com:987171879")
                "Session-Id"
     = Some "SID:ANON:example.com:987171879".
Proof.
  split; [|split; [|split]].
  - apply (proj1 (C7_writer_guard_and_assertion host
                    (Request "/shop/" [] None None false) ok_response)).
    left. reflexivity.
  - apply (proj2 (C7_writer_guard_and_assertion host
                    (bound "elsewhere") ok_response)
                 (MkSession "elsewhere" false)
                 "ANON" "example.com" "987171879");
      [reflexivity | reflexivity | reflexivity | discriminate].
  - exact (proj1 (proj2 (proj2 (C7_writer_guard_and_assertion host
                                  (bound "987171879") ok_response)
                               (MkSession "987171879" false)
                               "ANON" "example.com" "987171879"
                               eq_refl eq_refl eq_refl))
                 eq_refl).
  - exact (proj2 (proj2 (proj2 (C7_writer_guard_and_assertion host
                                  (bound "987171879") ok_response)
                               (MkSession "987171879" false)
                               "ANON" "example.com" "987171879"
                               eq_refl eq_refl eq_refl))).
Defined.


(** C9 at a realm with a double quote: the orchestrator answers with
    status 406 and content type JSON, but the realm went into the body
    unescaped, and the body is not the JSON object with the one field
    [reason]. *)
Theorem C9_reason_body_not_json :
  fst (fst (HeaderSessionMiddleware.process_request
              (with_header ("SID:ANON:a" ++ dq ++ "b:1")) empty_world))
  = Ok (Some (Response 406
                ("{" ++ dq ++ "reason" ++ dq ++ ": " ++ dq
                 ++ "Can not accept cookie with realm a" ++ dq
                 ++ "b on realm example.com" ++ dq ++ "}")
                "application/json" []))
  /\ Json.reason_object
       ("{" ++ dq ++ "reason" ++ dq ++ ": " ++ dq
        ++ "Can not accept cookie with realm a" ++ dq
        ++ "b on realm example.com" ++ dq ++ "}")
     = false
  /\ Json.reason_object
       (reason_body (mismatch_detail "other.com" "example.com"))
     = true.
Proof. repeat split. Qed.

Lemma C10_mismatch_leaves_request_witness :
  let req := with_header "SID:AUTH:other.com:XYZ" in
  let req' :=
    snd (fst (HeaderSessionMiddleware.process_request req empty_world)) in
  req' = req
  /\ session req' = session req
  /\ parsed_session_uri req' = parsed_session_uri req
  /\ csrf_processing_done req' = csrf_processing_done req.
Proof.
  apply (C10_mismatch_leaves_request host
           (with_header "SID:AUTH:other.com:XYZ") empty_world
           "AUTH" "other.com" "XYZ");
    [reflexivity | reflexivity | discriminate].
Defined.

(** The four end-to-end scenarios. *)

Example scenario_anonymous :
  exists req' w',
    HeaderSessionMiddleware.process_request
      (with_header "SID:ANON:example.com:987171879") empty_world
    = (Ok None, req', w')
    /\ HeaderSessionMiddleware.process_response req' ok_response
       = Ok (set_header ok_response "Session-Id"
                        "SID:ANON:example.com:987171879").
Proof. eexists. eexists. split; reflexivity. Qed.

Example scenario_authenticated_absent :
  exists resp w',
    HeaderSessionMiddleware.process_request
      (with_header "SID:AUTH:example.com:XYZ") empty_world
    = (Ok (Some resp), with_header "SID:AUTH:example.com:XYZ", w')
    /\ status_code resp = 401
    /\ sessions w' = []
    /\ HeaderSessionMiddleware.process_response
         (with_header "SID:AUTH:example.com:XYZ") ok_response
       = Ok ok_response.
Proof. eexists. eexists. repeat split. Qed.

Example scenario_unknown_key :
  fst (fst (ApiGatewayMiddleWare.process_request
              (api_request [("HTTP_AUTHORIZATION", "guess")]) keyed_world))
  = Raised PermissionDenied.
Proof. reflexivity. Qed.

End Runs.

(** ** More about the parser *)

Module ParserMore.

Import Re ReFacts StrFacts Grammar Parser.

Lemma sep_not_hex (a : ascii) : is_sep a = true -> is_hex a = false.
Proof.
  unfold is_sep. intros H. apply orb_prop in H.
  destruct H as [H|H]; apply Ascii.eqb_eq in H; subst a; reflexivity.
Qed.

Lemma app_eq_nil (a b : string) : a ++ b = "" -> a = "" /\ b = "".
Proof. destruct a; simpl; [auto | discriminate]. Qed.

Lemma cat_headed (l : list string) :
  forallb is_segment l = true -> headed (Str.cat l).
Proof.
  destruct l as [|g l]; simpl; [auto|]. intros H.
  apply andb_prop in H. destruct H as [Hg _].
  apply segment_inv in Hg. destruct Hg as (a & h & -> & Ha & _). exact Ha.
Qed.

Lemma cat_nil (l : list string) :
  forallb is_segment l = true -> Str.cat l = "" -> l = [].
Proof.
  destruct l as [|g l]; simpl; [auto|]. intros H E.
  apply andb_prop in H. destruct H as [Hg _].
  apply segment_inv in Hg. destruct Hg as (a & h & -> & _). discriminate.
Qed.

(** A hexadecimal digit cannot be where a run of suffixes starts. *)
Lemma hex_clash (h u v x y : string) (c : ascii) :
  Str.all is_hex h = true -> h = u ++ String c v ->
  headed x -> x <> String c y.
Proof.
  intros Hh -> Hx E. rewrite all_app in Hh. apply andb_prop in Hh.
  destruct Hh as [_ Hh]. simpl in Hh. apply andb_prop in Hh.
  destruct Hh as [Hc _]. subst x. simpl in Hx.
  apply sep_not_hex in Hx. congruence.
Qed.

(** A run of suffixes that ends another run is made of the last suffixes
    of that run. *)
Lemma cat_align (l1 l : list string) (m : string) :
  forallb is_segment l1 = true -> forallb is_segment l = true ->
  Str.cat l1 = m ++ Str.cat l ->
  exists l0, l1 = (l0 ++ l)%list /\ m = Str.cat l0.
Proof.
  revert l m; induction l1 as [|g l1 IH]; intros l m H1 H E.
  - simpl in E. symmetry in E. apply app_eq_nil in E. destruct E as [-> E].
    apply cat_nil in E; [|exact H]. subst l. now exists [].
  - simpl in H1. apply andb_prop in H1. destruct H1 as [Hg H1].
    destruct (segment_inv _ Hg) as (a & h & -> & Ha & Hne & Hh).
    simpl in E. destruct m as [|b m].
    + (* nothing before [l]: the two runs are the same *)
      simpl in E. destruct l as [|g' l]; [discriminate|].
      simpl in H. apply andb_prop in H. destruct H as [Hg' H].
      destruct (segment_inv _ Hg') as (a' & h' & -> & Ha' & Hne' & Hh').
      simpl in E. injection E as <- E.
      assert (h = h' /\ Str.cat l1 = Str.cat l) as [<- Eu].
      { destruct (app_eq_app _ _ _ _ E) as [u [[Eh Eu]|[Eh Eu]]];
          destruct u as [|c u].
        - rewrite app_nil_r in Eh. now split.
        - exfalso. simpl in Eu.
          apply (hex_clash _ _ _ _ _ _ Hh' Eh (cat_headed _ H1) Eu).
        - rewrite app_nil_r in Eh. now split.
        - exfalso. simpl in Eu.
          apply (hex_clash _ _ _ _ _ _ Hh Eh (cat_headed _ H) Eu). }
      destruct (IH l "" H1 H Eu) as (l0 & -> & El0).
      symmetry in El0. apply cat_nil in El0.
      * subst l0. now exists [].
      * rewrite forallb_app in H1. apply andb_prop in H1. tauto.
    + simpl in E. injection E as <- E.
      destruct (app_eq_app _ _ _ _ E) as [u [[Eh Eu]|[Eh Eu]]].
      * destruct (IH l u H1 H Eu) as (l0 & -> & ->).
        exists (String a h :: l0). simpl. subst m. now split.
      * destruct u as [|c u].
        -- rewrite app_nil_r in Eh. subst m. simpl in Eu. symmetry in Eu.
           destruct (IH l "" H1 H Eu) as (l0 & -> & El0).
           exists (String a h :: l0). simpl. rewrite <- El0.
           now rewrite app_nil_r.
        -- exfalso. simpl in Eu.
           apply (hex_clash _ _ _ _ _ _ Hh Eh (cat_headed _ H) Eu).
Qed.

Lemma startswith_app (p x : string) : Str.startswith (p ++ x) p = true.
Proof.
  induction p as [|a p IH]; simpl; [reflexivity|].
  now rewrite Ascii.eqb_refl, IH.
Qed.

(** A well-formed header has a match. *)
Lemma match_some (t r body nl : string) :
  t = "ANON" \/ t = "AUTH" -> Str.all dot r = true ->
  body <> "" -> Str.all dot body = true -> at_end nl = true ->
  match_ HTTP_SESSION_ID_REGEX (wire t r body ++ nl) <> None.
Proof.
  intros Ht Hrd Hne Hbd Hnl.
  assert (Hs : stripped 2 "") by (exists []; repeat split; auto).
  destruct (id_part_den body "" nl (9 + String.length r + 1)
              (("realm",
                between (Cursor 9 (r ++ ":" ++ body ++ nl))
                        (Cursor (9 + String.length r) (":" ++ body ++ nl)))
                 :: [("type", t)]) Hne Hbd Hs Hnl)
    as (c' & e' & D).
  set (X := ":" ++ r ++ ":" ++ body ++ nl) in *.
  assert (Hb : between (Cursor 4 (t ++ X)) (Cursor 8 X) = t)
    by (destruct Ht as [-> | ->]; reflexivity).
  assert (Da : den (Alt (lit "ANON") (lit "AUTH"))
                   (Cursor 4 (t ++ X)) [] (Cursor 8 X) []).
  { destruct Ht as [-> | ->];
      [left; exact (lit_den "ANON" 4 X []) |
       right; exact (lit_den "AUTH" 4 X [])]. }
  apply (den_group "type") in Da. rewrite Hb in Da.
  assert (D0 : den (lit "SID:") (Cursor 0 (wire t r body ++ nl)) []
                   (Cursor 4 (t ++ X)) []).
  { unfold wire, X. rewrite !app_assoc. apply (lit_den "SID:"). }
  unfold match_.
  apply (run_complete HTTP_SESSION_ID_REGEX done _ _ c' e'); [|discriminate].
  unfold HTTP_SESSION_ID_REGEX.
  apply (den_seq _ _ _ _ (Cursor 0 (wire t r body ++ nl)) []); [simpl; auto|].
  eapply den_seq; [exact D0|].
  eapply den_seq; [exact Da|].
  eapply den_seq; [apply (lit_den ":" 8)|].
  unfold realm_part.
  eapply den_seq.
  { apply den_group.
    apply (den_rep _ _ _ _ (String.length r)).
    - unfold rounds; simpl. rewrite length_app. lia.
    - apply chr_power. exact Hrd. }
  eapply den_seq; [apply (lit_den ":")|].
  exact D.
Qed.

(** The type and a colon-free realm can be read off the wire form. *)
Lemma wire_split (t r x t' r' x' : string) :
  t = "ANON" \/ t = "AUTH" -> t' = "ANON" \/ t' = "AUTH" ->
  Str.all not_colon r = true -> Str.all not_colon r' = true ->
  wire t r x = wire t' r' x' -> t = t' /\ r = r' /\ x = x'.
Proof.
  intros Ht Ht' Hr Hr' E. unfold wire in E.
  assert (t = t' /\ r ++ ":" ++ x = r' ++ ":" ++ x') as [<- E'].
  { destruct Ht as [-> | ->], Ht' as [-> | ->]; simpl in E;
      try discriminate; injection E as E; now split. }
  apply first_colon in E'; auto; tauto.
Qed.

(** What the parser returns is a reference with a type [ANON] or [AUTH],
    a realm without colon and line feed and a non-empty identifier
    without line feed, and the header starts with its wire form. *)
Theorem parse_output_well_formed (s : string) (p : dict) :
  parse_header s = Some p ->
  exists t r i,
    p = reference t r i
    /\ (t = "ANON" \/ t = "AUTH")
    /\ Str.all not_colon r = true /\ Str.all dot r = true
    /\ i <> "" /\ Str.all dot i = true
    /\ Str.startswith s (wire t r i) = true.
Proof.
  intros H. apply parse_header_inv in H.
  destruct H as (t & r & i & sfx & nl & [Hw Ht Hrd Hrc Hne Hid Hs Hnl Hm] & ->).
  exists t, r, i. repeat split; auto.
  rewrite Hw. apply startswith_app.
Qed.

Lemma parse_output_well_formed_witness :
  exists t r i,
    reference "ANON" "example.com" "98717" = reference t r i
    /\ (t = "ANON" \/ t = "AUTH")
    /\ Str.all not_colon r = true /\ Str.all dot r = true
    /\ i <> "" /\ Str.all dot i = true
    /\ Str.startswith "SID:ANON:example.com:98717-16EF:100" (wire t r i)
       = true.
Proof.
  apply (parse_output_well_formed "SID:ANON:example.com:98717-16EF:100").
  reflexivity.
Defined.

(** The parser accepts exactly the well-formed headers: [SID:], a type,
    a colon, a realm, a colon and a non-empty body, all without line
    feed, and at most one line feed after them. *)
Theorem parse_accepts_iff (s : string) :
  parse_header s <> None <-> well_formed s.
Proof.
  split.
  - destruct (parse_header s) as [p|] eqn:E; [intros _ | congruence].
    apply parse_header_inv in E.
    destruct E as (t & r & i & sfx & nl & [Hw Ht Hrd Hrc Hne Hid Hs Hnl Hm] & _).
    exists t, r, (i ++ sfx), nl. repeat split; auto.
    + rewrite Hw. unfold wire. now rewrite !app_assoc.
    + destruct i; [congruence | discriminate].
    + rewrite all_app, Hid. simpl. now apply (stripped_dot 2).
  - intros (t & r & body & nl & -> & Ht & Hrd & Hne & Hbd & Hnl).
    unfold parse_header.
    pose proof (match_some t r body nl Ht Hrd Hne Hbd Hnl) as H.
    destruct (match_ HTTP_SESSION_ID_REGEX (wire t r body ++ nl));
      congruence.
Qed.

(** For an accepted header without line feed, what is rendered from
    the parsed reference is the header less the at most two suffixes that
    were stripped, and no other way of taking at most two suffixes off
    leaves a shorter identifier. *)
Theorem render_parse_canonical (s : string) (p : dict) :
  Str.all dot s = true ->
  parse_header s = Some p ->
  exists t r i sfx,
    p = reference t r i
    /\ render p = Ok (wire t r i)
    /\ s = wire t r i ++ sfx
    /\ stripped 2 sfx
    /\ minimal i sfx.
Proof.
  intros Hd H. apply parse_header_inv in H.
  destruct H as (t & r & i & sfx & nl & [Hw Ht Hrd Hrc Hne Hid Hs Hnl Hm] & ->).
  exists t, r, i, sfx. repeat split; auto; [apply render_reference|].
  rewrite Hw in Hd. rewrite !all_app in Hd.
  apply andb_prop in Hd. destruct Hd as [_ Hd].
  apply andb_prop in Hd. destruct Hd as [_ Hd].
  destruct (at_end_cases _ Hnl) as [-> | ->]; [|discriminate].
  now rewrite Hw, app_nil_r.
Qed.

Lemma render_parse_canonical_witness :
  exists t r i sfx,
    reference "ANON" "example.com" "987171879" = reference t r i
    /\ render (reference "ANON" "example.com" "987171879") = Ok (wire t r i)
    /\ "SID:ANON:example.com:987171879-16EF" = wire t r i ++ sfx
    /\ stripped 2 sfx
    /\ minimal i sfx.
Proof.
  apply (render_parse_canonical "SID:ANON:example.com:987171879-16EF");
    reflexivity.
Defined.

(** At most two suffixes after an identifier are stripped and the
    identifier comes back: always when there are two, and when there are
    fewer if the identifier does not itself end in a suffix.  A final
    line feed does not change this. *)
Theorem parse_strips_suffixes (t r i nl : string) (l : list string) :
  t = "ANON" \/ t = "AUTH" ->
  Str.all not_colon r = true -> Str.all dot r = true ->
  i <> "" -> Str.all dot i = true ->
  forallb is_segment l = true -> at_end nl = true ->
  length l = 2 \/ (length l <= 2 /\ ends_with_segment i = false) ->
  parse_header (wire t r i ++ Str.cat l ++ nl) = Some (reference t r i).
Proof.
  intros Ht Hrc Hrd Hne Hid Hl Hnl Hc.
  apply (parse_header_intro _ _ _ _ (Str.cat l) nl).
  constructor; auto.
  - exists l. repeat split; auto. destruct Hc as [->|[Hc _]]; lia.
  - intros i1 sfx1 Hne1 (l1 & Hl1 & Hf1 & ->) E.
    destruct (app_eq_app _ _ _ _ E) as [m [[-> _]|[Ei Em]]].
    + rewrite length_app. lia.
    + destruct m as [|b m]; [rewrite Ei, app_nil_r; lia|].
      exfalso.
      destruct (cat_align _ _ _ Hf1 Hl Em) as (l0 & -> & El0).
      rewrite List.length_app in Hl1.
      assert (l0 <> []) by (intros ->; discriminate).
      destruct Hc as [Hc|[_ Hc]].
      * destruct l0; [congruence | simpl in Hl1; lia].
      * rewrite Ei, El0 in Hc.
        rewrite forallb_app in Hf1. apply andb_prop in Hf1.
        rewrite (stripped_ends (length l0) i1 (Str.cat l0)) in Hc;
          [discriminate | | rewrite <- El0; discriminate].
        exists l0. repeat split; auto. tauto.
Qed.

Lemma parse_strips_suffixes_witness :
  parse_header (wire "ANON" "example.com" "a-1" ++ Str.cat ["-2"; ":3F"] ++ "")
  = Some (reference "ANON" "example.com" "a-1")
  /\ parse_header (wire "AUTH" "" "923-thread1" ++ Str.cat ["-16EF"]
                   ++ String LF "")
     = Some (reference "AUTH" "" "923-thread1").
Proof.
  split.
  - apply parse_strips_suffixes;
      [left; reflexivity | reflexivity | reflexivity | discriminate
       | reflexivity | reflexivity | reflexivity | left; reflexivity].
  - apply parse_strips_suffixes;
      [right; reflexivity | reflexivity | reflexivity | discriminate
       | reflexivity | reflexivity | reflexivity
       | right; split; [simpl; lia | reflexivity]].
Defined.

(** The header rendered from a parsed reference is accepted again, with
    the same type and realm; its identifier is the one parsed before, less
    at most two more suffixes. *)
Theorem reparse_rendered (s t r i : string) :
  parse_header s = Some (reference t r i) ->
  exists i' sfx,
    parse_header (wire t r i) = Some (reference t r i')
    /\ i = i' ++ sfx /\ stripped 2 sfx.
Proof.
  intros H. apply parse_header_inv in H.
  destruct H as (t0 & r0 & i0 & sfx0 & nl0
                 & [Hw Ht Hrd Hrc Hne Hid Hs Hnl Hm] & E).
  injection E as <- <- <-.
  destruct (parse_header (wire t r i)) as [p|] eqn:E2.
  - apply parse_header_inv in E2.
    destruct E2 as (t' & r' & i' & sfx' & nl'
                    & [Hw' Ht' Hrd' Hrc' Hne' Hid' Hs' Hnl' Hm'] & ->).
    assert (Ew : wire t r i = wire t' r' (i' ++ sfx' ++ nl')).
    { rewrite Hw'. unfold wire. now rewrite !app_assoc. }
    apply wire_split in Ew; auto. destruct Ew as (<- & <- & Ei).
    assert (En : i ++ "" = (i' ++ sfx') ++ nl')
      by (now rewrite app_nil_r, app_assoc).
    apply end_unique in En; auto.
    + destruct En as [En _]. exists i', sfx'. now repeat split.
    + rewrite all_app, Hid'. simpl. now apply (stripped_dot 2).
  - exfalso. revert E2. apply parse_accepts_iff.
    exists t, r, i, "". repeat split; auto. now rewrite app_nil_r.
Qed.

Lemma reparse_rendered_witness :
  exists i' sfx,
    parse_header (wire "ANON" "r" "a-1") = Some (reference "ANON" "r" i')
    /\ "a-1" = i' ++ sfx /\ stripped 2 sfx.
Proof.
  apply (reparse_rendered "SID:ANON:r:a-1-2-3"). reflexivity.
Defined.

End ParserMore.

(** ** More about the middleware *)

Section MiddlewareMore.

Import StrFacts Grammar Parser ParserMore.
Context (host : Host).

Lemma parse_session_id_inv (req : request) (p : dict) :
  parse_session_id req = Some p ->
  exists t r i, p = reference t r i /\ (t = "ANON" \/ t = "AUTH").
Proof.
  unfold parse_session_id.
  destruct (getitem (META req) "HTTP_SESSION_ID"); [|discriminate].
  intros H. apply parse_output_well_formed in H.
  destruct H as (t & r & i & -> & Ht & _). now exists t, r, i.
Qed.

(** What the [try] block does with a reference. *)
Lemma bind_session_reference (t r i : string) (req : request) (w : world) :
  HeaderSessionMiddleware.bind_session (reference t r i) req w
  = if negb (String.eqb r (get_domain req)) then
      (Raised (NotAcceptable (mismatch_detail r (get_domain req))), req, w)
    else
      match start_or_resume i t w with
      | (Raised e, w') => (Raised e, req, w')
      | (Ok s, w') =>
          (Ok None,
           Request (path req) (META req) (Some s) (Some (reference t r i)) true,
           w')
      end.
Proof.
  unfold HeaderSessionMiddleware.bind_session.
  change (getitem (reference t r i) "realm") with (Some r).
  cbv beta iota zeta.
  destruct (negb (String.eqb r (get_domain req))).
  - now rewrite detail_format.
  - reflexivity.
Qed.

(** What the resumer returns and what it does to the world. *)
Lemma start_or_resume_spec (session_id ty : string) (w : world) :
  let held := existsb (String.eqb session_id) (sessions w) in
  let strict := negb (String.eqb ty "ANON") in
  start_or_resume session_id ty w
  = (if held then Ok (MkSession session_id false)
     else if strict then Raised SessionNotFound
          else Ok (MkSession session_id true),
     World (if held || strict then sessions w else session_id :: sessions w)
           (api_keys w) (log w) ((session_id, strict) :: resumptions w)).
Proof.
  unfold start_or_resume, get_session.
  destruct (String.eqb ty "ANON"),
    (existsb (String.eqb session_id) (sessions w)); reflexivity.
Qed.

(** A matching realm and a session that can be had: the orchestrator
    lets the request through with the session bound under the
    identifier of the header, the reference attached and the CSRF check
    switched off; the store holds the session afterwards, and the
    resumer was called once. *)
Theorem process_request_binds (req : request) (w : world) (t r i : string) :
  is_api_request req = true ->
  parse_session_id req = Some (reference t r i) ->
  r = get_domain req ->
  t = "ANON" \/ existsb (String.eqb i) (sessions w) = true ->
  exists s w',
    HeaderSessionMiddleware.process_request req w
    = (Ok None,
       Request (path req) (META req) (Some s) (Some (reference t r i)) true,
       w')
    /\ session_key s = i
    /\ is_new s = negb (existsb (String.eqb i) (sessions w))
    /\ existsb (String.eqb i) (sessions w') = true
    /\ resumptions w' = (i, negb (String.eqb t "ANON")) :: resumptions w
    /\ api_keys w' = api_keys w /\ log w' = log w.
Proof.
  intros Ha Hp Hr Hc. unfold HeaderSessionMiddleware.process_request.
  rewrite Ha, Hp, bind_session_reference, <- Hr, String.eqb_refl.
  cbn [negb]. rewrite start_or_resume_spec. cbv zeta.
  destruct (existsb (String.eqb i) (sessions w)) eqn:He.
  - eexists. eexists. repeat split. simpl. exact He.
  - destruct Hc as [-> | Hc]; [|discriminate].
    eexists. eexists. repeat split. simpl. now rewrite String.eqb_refl.
Qed.

(** A matching realm, an [AUTH] reference and no such session in the
    store: the orchestrator answers with the status and detail of the
    resumer's failure in the reason template; nothing is bound and no
    session is created. *)
Theorem process_request_not_found (req : request) (w : world) (r i : string) :
  is_api_request req = true ->
  parse_session_id req = Some (reference "AUTH" r i) ->
  r = get_domain req ->
  existsb (String.eqb i) (sessions w) = false ->
  HeaderSessionMiddleware.process_request req w
  = (Ok (Some (Response not_found_status (reason_body not_found_detail)
                        "application/json" [])),
     req,
     World (sessions w) (api_keys w) (log w) ((i, true) :: resumptions w)).
Proof.
  intros Ha Hp Hr He. unfold HeaderSessionMiddleware.process_request.
  rewrite Ha, Hp, bind_session_reference, <- Hr, String.eqb_refl.
  cbn [negb]. rewrite start_or_resume_spec. cbv zeta. rewrite He.
  reflexivity.
Qed.

(** The orchestrator never raises: it lets the request through or
    returns a JSON response without headers of its own, with status 406
    and the world untouched or with the status of the resumer's failure;
    and whenever it returns a response the request is as it was. *)
Theorem process_request_never_raises (req : request) (w : world) :
  exists o req' w',
    HeaderSessionMiddleware.process_request req w = (Ok o, req', w')
    /\ match o with
       | None => True
       | Some resp =>
           req' = req
           /\ content_type resp = "application/json"
           /\ headers resp = []
           /\ ((status_code resp = 406 /\ w' = w)
               \/ status_code resp = not_found_status)
       end.
Proof.
  unfold HeaderSessionMiddleware.process_request.
  destruct (is_api_request req); [|eexists; eexists; eexists; now split].
  destruct (parse_session_id req) as [p|] eqn:Hp;
    [|eexists; eexists; eexists; now split].
  destruct (parse_session_id_inv _ _ Hp) as (t & r & i & -> & Ht).
  rewrite bind_session_reference.
  destruct (negb (String.eqb r (get_domain req))).
  - eexists. eexists. eexists. split; [reflexivity|].
    simpl; repeat split; auto.
  - rewrite start_or_resume_spec. cbv zeta.
    destruct (existsb (String.eqb i) (sessions w));
      [|destruct (negb (String.eqb t "ANON"))];
      eexists; eexists; eexists; (split; [reflexivity|]); simpl;
      repeat split; auto.
Qed.

(** The orchestrator leaves the key table and the log alone, calls the
    resumer at most once and adds at most one session to the store. *)
Theorem process_request_world (req : request) (w : world) :
  let w' := snd (HeaderSessionMiddleware.process_request req w) in
  api_keys w' = api_keys w
  /\ log w' = log w
  /\ (resumptions w' = resumptions w
      \/ exists call, resumptions w' = call :: resumptions w)
  /\ (sessions w' = sessions w
      \/ exists key, sessions w' = key :: sessions w).
Proof.
  unfold HeaderSessionMiddleware.process_request.
  destruct (is_api_request req); [|simpl; auto].
  destruct (parse_session_id req) as [p|] eqn:Hp; [|simpl; auto].
  destruct (parse_session_id_inv _ _ Hp) as (t & r & i & -> & Ht).
  rewrite bind_session_reference.
  destruct (negb (String.eqb r (get_domain req))); [simpl; auto|].
  rewrite start_or_resume_spec. cbv zeta.
  destruct (existsb (String.eqb i) (sessions w));
    [|destruct (negb (String.eqb t "ANON"))]; simpl;
    repeat split; eauto.
Qed.

(** From request to response: when the orchestrator has let an API
    request with a parsed header through, the writer's assertion holds;
    the response then carries the wire form of the parsed reference
    under [Session-Id] and goes on to the cookie middleware, unless the
    wire form holds a carriage return, which the parser lets into realm
    and identifier and Django refuses in a header. *)
Theorem header_round_trip (req req' : request) (w w' : world)
        (resp : response) (t r i : string) :
  is_api_request req = true ->
  parse_session_id req = Some (reference t r i) ->
  HeaderSessionMiddleware.process_request req w = (Ok None, req', w') ->
  HeaderSessionMiddleware.process_response req' resp
  = (if Str.all header_char (wire t r i)
     then Ok (cookie_process_response req'
                (set_header resp "Session-Id" (wire t r i)))
     else Raised BadHeaderError)
  /\ get_header (set_header resp "Session-Id" (wire t r i)) "Session-Id"
     = Some (wire t r i).
Proof.
  intros Ha Hp H. split; [|reflexivity]. revert H.
  unfold HeaderSessionMiddleware.process_request.
  rewrite Ha, Hp, bind_session_reference.
  destruct (negb (String.eqb r (get_domain req))).
  - unfold HeaderSessionMiddleware.handle. cbn [api_exception].
    rewrite reason_format. discriminate.
  - rewrite start_or_resume_spec. cbv zeta.
    assert (R : forall s w0,
               (Ok None,
                Request (path req) (META req) (Some (MkSession i s))
                        (Some (reference t r i)) true, w0)
               = (@Ok (option response) None, req', w') ->
               HeaderSessionMiddleware.process_response req' resp
               = (if Str.all header_char (wire t r i)
                  then Ok (cookie_process_response req'
                             (set_header resp "Session-Id" (wire t r i)))
                  else Raised BadHeaderError)).
    { intros s w0 E. injection E as <- _.
      unfold HeaderSessionMiddleware.process_response.
      change (is_api_request
                (Request (path req) (META req) (Some (MkSession i s))
                         (Some (reference t r i)) true))
        with (is_api_request req).
      rewrite Ha. cbn [session parsed_session_uri session_key].
      change (session_id_from_parsed_session_uri (reference t r i))
        with (@Ok string i).
      cbv beta iota. rewrite String.eqb_refl, render_reference.
      unfold with_session_id.
      now destruct (Str.all header_char (wire t r i)). }
    destruct (existsb (String.eqb i) (sessions w));
      [|destruct (negb (String.eqb t "ANON"))].
    + apply R.
    + unfold HeaderSessionMiddleware.handle. cbn [api_exception].
      rewrite reason_format. discriminate.
    + apply R.
Qed.

(** The gateway only ever logs: it returns no response, it lets the
    request through or raises [PermissionDenied], and it changes neither
    the request nor the store, the key table and the calls of the
    resumer; a request outside the API always passes. *)
Theorem gateway_only_logs (req : request) (w : world) :
  exists out w',
    ApiGatewayMiddleWare.process_request req w = (out, req, w')
    /\ ((out = Ok None /\ w' = w)
        \/ (out = Raised PermissionDenied /\ is_api_request req = true
            /\ log w' = "No credentials provided" :: log w))
    /\ sessions w' = sessions w
    /\ api_keys w' = api_keys w
    /\ resumptions w' = resumptions w
    /\ (is_api_request req = false -> out = Ok None).
Proof.
  unfold ApiGatewayMiddleWare.process_request.
  destruct (is_api_request req);
    [destruct (existsb _ (api_keys w))|];
    eexists; eexists; (split; [reflexivity|]); repeat split; auto;
    discriminate.
Qed.

Lemma strip_prefix_app (p x : string) : Json.strip_prefix p (p ++ x) = Some x.
Proof.
  induction p as [|a p IH]; simpl; [now destruct x|].
  now rewrite Ascii.eqb_refl.
Qed.

Lemma string_tail_safe (u v : string) :
  Str.all json_safe u = true -> Json.string_tail (u ++ dq ++ v) = Some v.
Proof.
  induction u as [|a u IH]; simpl; [reflexivity|]. intros H.
  apply andb_prop in H. destruct H as [Ha Hu]. unfold json_safe in Ha.
  apply andb_prop in Ha. destruct Ha as [Ha H3].
  apply andb_prop in Ha. destruct Ha as [H1 H2].
  apply negb_true_iff in H1, H2, H3. rewrite H1, H2, H3. now apply IH.
Qed.

(** When realm and domain hold no double quote, no backslash and no
    control character, the body of the mismatch response is a
    well-formed JSON object with the one field [reason]. *)
Theorem mismatch_body_is_json (req : request) (w : world) (t r i : string) :
  is_api_request req = true ->
  parse_session_id req = Some (reference t r i) ->
  r <> get_domain req ->
  Str.all json_safe r = true ->
  Str.all json_safe (get_domain req) = true ->
  exists resp,
    fst (fst (HeaderSessionMiddleware.process_request req w)) = Ok (Some resp)
    /\ Json.reason_object (content resp) = true.
Proof.
  intros Ha Hp Hr Hsr Hsd.
  rewrite (process_request_mismatch host _ w _ _ _ Ha Hp Hr).
  eexists. split; [reflexivity|]. simpl content.
  assert (E : forall d, reason_body d
                       = ("{" ++ dq ++ "reason" ++ dq ++ ": " ++ dq)
                           ++ d ++ dq ++ "}") by reflexivity.
  unfold Json.reason_object.
  rewrite E, strip_prefix_app, string_tail_safe; [reflexivity|].
  unfold mismatch_detail. rewrite !all_app, Hsr, Hsd. reflexivity.
Qed.

End MiddlewareMore.

(** ** More runs *)

Section MoreRuns.

Import Example ParserMore.

Lemma parse_accepts_iff_witness :
  parse_header "SID:AUTH:a:b:c" <> None
  /\ well_formed ("SID:ANON::x" ++ String LF "").
Proof.
  split.
  - apply (proj2 (parse_accepts_iff "SID:AUTH:a:b:c")).
    exists "AUTH", "a:b", "c", "". repeat split; auto. discriminate.
  - apply (proj1 (parse_accepts_iff ("SID:ANON::x" ++ String LF ""))).
    discriminate.
Defined.

Lemma process_request_binds_witness :
  exists s w',
    HeaderSessionMiddleware.process_request
      (with_header "SID:ANON:example.com:987171879-16EF") empty_world
    = (Ok None,
       Request "/api/basket/"
               [("HTTP_SESSION_ID", "SID:ANON:example.com:987171879-16EF")]
               (Some s)
               (Some (reference "ANON" "example.com" "987171879")) true,
       w')
    /\ session_key s = "987171879"
    /\ is_new s = true
    /\ existsb (String.eqb "987171879") (sessions w') = true
    /\ resumptions w' = [("987171879", false)]
    /\ api_keys w' = [] /\ log w' = [].
Proof.
  apply (process_request_binds host
           (with_header "SID:ANON:example.com:987171879-16EF") empty_world
           "ANON" "example.com" "987171879");
    [reflexivity | reflexivity | reflexivity | left; reflexivity].
Defined.

Lemma process_request_not_found_witness :
  HeaderSessionMiddleware.process_request
    (with_header "SID:AUTH:example.com:XYZ") (World ["ABC"] [] [] [])
  = (Ok (Some (Response 401
                 (reason_body "Authentication credentials were not provided.")
                 "application/json" [])),
     with_header "SID:AUTH:example.com:XYZ",
     World ["ABC"] [] [] [("XYZ", true)]).
Proof.
  apply (process_request_not_found host
           (with_header "SID:AUTH:example.com:XYZ") (World ["ABC"] [] [] [])
           "example.com" "XYZ"); reflexivity.
Defined.

Lemma header_round_trip_witness :
  (HeaderSessionMiddleware.process_response
     (Request "/api/basket/"
              [("HTTP_SESSION_ID", "SID:AUTH:example.com:ABC:ff")]
              (Some (MkSession "ABC" false))
              (Some (reference "AUTH" "example.com" "ABC")) true)
     ok_response
   = Ok (set_header ok_response "Session-Id" "SID:AUTH:example.com:ABC")
   /\ get_header
        (set_header ok_response "Session-Id" "SID:AUTH:example.com:ABC")
        "Session-Id"
      = Some "SID:AUTH:example.com:ABC")
  /\ HeaderSessionMiddleware.process_response
       (Request "/api/basket/"
                [("HTTP_SESSION_ID",
                  "SID:ANON:example.com:a" ++ String CR "b")]
                (Some (MkSession ("a" ++ String CR "b") true))
                (Some (reference "ANON" "example.com" ("a" ++ String CR "b")))
                true)
       ok_response
     = Raised BadHeaderError.
Proof.
  split.
  - apply (header_round_trip host
             (with_header "SID:AUTH:example.com:ABC:ff") _
             (World ["ABC"] [] [] []) (World ["ABC"] [] [] [("ABC", true)])
             ok_response "AUTH" "example.com" "ABC");
      reflexivity.
  - apply (header_round_trip host
             (with_header ("SID:ANON:example.com:a" ++ String CR "b")) _
             empty_world
             (World ["a" ++ String CR "b"] [] []
                    [("a" ++ String CR "b", false)])
             ok_response "ANON" "example.com" ("a" ++ String CR "b"));
      reflexivity.
Defined.

Lemma gateway_only_logs_witness :
  exists out w',
    ApiGatewayMiddleWare.process_request
      (Request "/shop/" [] None None false) keyed_world
    = (out, Request "/shop/" [] None None false, w')
    /\ ((out = Ok None /\ w' = keyed_world)
        \/ (out = Raised PermissionDenied
            /\ is_api_request (Request "/shop/" [] None None false) = true
            /\ log w' = "No credentials provided" :: log keyed_world))
    /\ sessions w' = sessions keyed_world
    /\ api_keys w' = api_keys keyed_world
    /\ resumptions w' = resumptions keyed_world
    /\ (is_api_request (Request "/shop/" [] None None false) = false ->
        out = Ok None).
Proof.
  apply (gateway_only_logs host (Request "/shop/" [] None None false)
           keyed_world).
Defined.

Lemma mismatch_body_is_json_witness :
  exists resp,
    fst (fst (HeaderSessionMiddleware.process_request
                (with_header "SID:ANON:other.com:1") empty_world))
    = Ok (Some resp)
    /\ Json.reason_object (content resp) = true.
Proof.
  apply (mismatch_body_is_json host
           (with_header "SID:ANON:other.com:1") empty_world
           "ANON" "other.com" "1");
    [reflexivity | reflexivity | discriminate | reflexivity | reflexivity].
Defined.

End MoreRuns.
